(** * Blockfile codec (hyperspy/io_plugins/blockfile.py)

    A shallow embedding of the ASTAR blockfile reader and writer and of the
    pieces of Python, NumPy and [datetime] they run on, followed by the
    properties of the codec.

    Layout of the development:
    - [Py]: exceptions, results, slicing and indexing of Python sequences;
    - [Np]: byte order, scalar codecs, type strings and one-record
      structured arrays as NumPy lays them out;
    - [Dt]: [datetime] and [timedelta] as far as the serial date needs them;
    - the functions of blockfile.py under their own names;
    - lemmas and theorems. *)

From Stdlib Require Import ZArith String Ascii Bool Lia List.
From Stdlib.Strings Require Import Byte.
From Stdlib Require Import DecimalString.
From Stdlib Require Import Floats.
Import ListNotations.

Set Warnings "-inexact-float".

Open Scope string_scope.
Open Scope list_scope.
Open Scope Z_scope.

(* ------------------------------------------------------------------ *)
(** ** Python values and control *)

Module Py.

(** The exceptions the codec can run into. *)
Inductive exn :=
| TypeError (msg : string)
| ValueError (msg : string)
| KeyError (key : string)
| ZeroDivisionError
| OverflowError
| IOError.

Inductive result (A : Type) :=
| Ok (a : A)
| Raise (e : exn).
Arguments Ok {A} a.
Arguments Raise {A} e.

Definition bind {A B} (m : result A) (k : A -> result B) : result B :=
  match m with
  | Ok a => k a
  | Raise e => Raise e
  end.

Definition is_ok {A} (m : result A) : bool :=
  match m with Ok _ => true | Raise _ => false end.

(** [xrange n] *)
Definition xrange (n : nat) : list nat := seq 0 n.

(** [l[:stop]] for any integer [stop]: a negative [stop] counts from the
    end of the sequence, and the bounds are clipped to the sequence. *)
Definition slice_to {A} (l : list A) (stop : Z) : list A :=
  let len := Z.of_nat (length l) in
  let stop' := if stop <? 0 then Z.max 0 (len + stop) else Z.min stop len in
  firstn (Z.to_nat stop') l.

(** [l[i]] for any integer [i]; [None] stands for [IndexError]. *)
Definition index {A} (l : list A) (i : Z) : option A :=
  let len := Z.of_nat (length l) in
  let j := if i <? 0 then len + i else i in
  if (j <? 0) || (len <=? j) then None else nth_error l (Z.to_nat j).

End Py.
Import Py.

Declare Scope result_scope.
Delimit Scope result_scope with result.
Notation "x <- m ;; k" := (Py.bind m (fun x => k))
  (at level 61, m at next level, right associativity) : result_scope.
Notation "' p <- m ;; k" := (Py.bind m (fun p => k))
  (at level 61, p pattern, m at next level, right associativity) : result_scope.

(* ------------------------------------------------------------------ *)
(** ** NumPy: scalars, type strings, structured arrays *)

Module Np.

Inductive byteorder := LittleEndian | BigEndian.

(** *** Bytes *)

Definition u8 (z : Z) : byte :=
  match Byte.of_N (Z.to_N (z mod 256)) with
  | Some b => b
  | None => x00
  end.

Definition Z_of_byte (b : byte) : Z := Z.of_N (Byte.to_N b).

Definition bytes_of_string (s : string) : list byte :=
  List.map byte_of_ascii (list_ascii_of_string s).

(** *** Unsigned integers of [n] bytes *)

Fixpoint le_bytes (n : nat) (z : Z) : list byte :=
  match n with
  | O => []
  | S k => u8 z :: le_bytes k (z / 256)
  end.

Fixpoint le_value (bs : list byte) : Z :=
  match bs with
  | [] => 0
  | b :: r => Z_of_byte b + 256 * le_value r
  end.

Definition uint_bytes (o : byteorder) (n : nat) (z : Z) : list byte :=
  match o with
  | LittleEndian => le_bytes n z
  | BigEndian => rev (le_bytes n z)
  end.

Definition uint_value (o : byteorder) (bs : list byte) : Z :=
  match o with
  | LittleEndian => le_value bs
  | BigEndian => le_value (rev bs)
  end.

(** Wrap-around of an [n]-byte unsigned integer. *)
Definition wrap (n : nat) (z : Z) : Z := z mod 2 ^ (8 * Z.of_nat n).

(** *** 64-bit floats (IEEE 754 binary64, the primitive floats) *)

(** [float(z)] of an integer: the nearest float (an integer beyond the
    range of the floats, which Python refuses, gives an infinity). *)
Definition float_of_Z (z : Z) : float :=
  SF2Prim (binary_normalize prec emax z 0 false).

(** Truncation towards zero, the C cast of a float to an integer;
    the non-finite values are sent to 0. *)
Definition trunc (x : float) : Z :=
  match Prim2SF x with
  | S754_finite s m e =>
      let v := if 0 <=? e then Z.pos m * 2 ^ e else Z.pos m / 2 ^ (- e) in
      if s then - v else v
  | _ => 0
  end.


(** The 64 bits of a float; every NaN is written as the quiet NaN
    0x7FF8000000000000. *)
Definition f8_bits (x : float) : Z :=
  match Prim2SF x with
  | S754_zero s => if s then 2 ^ 63 else 0
  | S754_infinity s => (if s then 2 ^ 63 else 0) + 2047 * 2 ^ 52
  | S754_nan => 2047 * 2 ^ 52 + 2 ^ 51
  | S754_finite s m e =>
      (if s then 2 ^ 63 else 0) +
      (if Z.pos m <? 2 ^ 52 then Z.pos m
       else (e + 1075) * 2 ^ 52 + (Z.pos m - 2 ^ 52))
  end.

Definition f8_of_bits (b : Z) : float :=
  let s := Z.testbit b 63 in
  let e := (b / 2 ^ 52) mod 2048 in
  let m := b mod 2 ^ 52 in
  SF2Prim
    (if e =? 0 then
       match m with
       | Z.pos p => S754_finite s p (-1074)
       | _ => S754_zero s
       end
     else if e =? 2047 then
       (if m =? 0 then S754_infinity s else S754_nan)
     else
       match m + 2 ^ 52 with
       | Z.pos p => S754_finite s p (e - 1075)
       | _ => S754_zero s
       end).

(** *** Type strings

    A scalar type string is an optional byte-order character
    ([<] little, [>] big; [=], [|] or none: the order of the host) followed
    by a kind character and the size in bytes.  The kinds the codec uses
    are [u] (unsigned integer, 1, 2, 4 or 8 bytes) and [f] (float, 8
    bytes).  NumPy reads more than that in a string (a repeat count before
    the type, a list of types separated by commas); those forms build other
    record types than the header and are not followed here: [parse_code]
    answers [None] for them as for a string NumPy does not understand. *)

Inductive kind := UInt | Float.

Record scalar := { sc_order : option byteorder; sc_kind : kind; sc_size : nat }.

(** A field type: [(bytes, n)] or a scalar type string. *)
Inductive dtype :=
| Bytes (n : nat)
| Code (code : string).

Inductive ftype :=
| FBytes (n : nat)
| FScalar (t : scalar).

Definition parse_size (k : kind) (c : ascii) : option nat :=
  match k, c with
  | UInt, "1"%char => Some 1%nat
  | UInt, "2"%char => Some 2%nat
  | UInt, "4"%char => Some 4%nat
  | _, "8"%char => Some 8%nat
  | _, _ => None
  end.

Definition parse_kind (c : ascii) : option kind :=
  match c with
  | "u"%char => Some UInt
  | "f"%char => Some Float
  | _ => None
  end.

Definition parse_code (code : string) : option scalar :=
  let '(o, rest) :=
    match code with
    | String "<" r => (Some LittleEndian, r)
    | String ">" r => (Some BigEndian, r)
    | String "=" r => (None, r)
    | String "|" r => (None, r)
    | _ => (None, code)
    end in
  match rest with
  | String k (String n EmptyString) =>
      match parse_kind k with
      | Some k' =>
          match parse_size k' n with
          | Some n' => Some {| sc_order := o; sc_kind := k'; sc_size := n' |}
          | None => None
          end
      | None => None
      end
  | _ => None
  end.

(** The byte order a scalar type is stored in on a given host. *)
Definition order_on (host : byteorder) (t : scalar) : byteorder :=
  match sc_order t with
  | Some o => o
  | None => host
  end.

Definition itemsize (t : ftype) : nat :=
  match t with
  | FBytes n => n
  | FScalar t => sc_size t
  end.

(** [np.dtype(list)]: a packed record type of byte fields and scalar type
    strings; a string [parse_code] has no scalar type for raises
    [TypeError]. *)
Fixpoint np_dtype (l : list (string * dtype)) : result (list (string * ftype)) :=
  match l with
  | [] => Ok []
  | (name, Bytes n) :: r =>
      (r' <- np_dtype r ;; Ok ((name, FBytes n) :: r'))%result
  | (name, Code c) :: r =>
      match parse_code c with
      | Some t => (r' <- np_dtype r ;; Ok ((name, FScalar t) :: r'))%result
      | None => Raise (TypeError "data type not understood")
      end
  end.

Definition record_size (fields : list (string * ftype)) : nat :=
  list_sum (map (fun f => itemsize (snd f)) fields).

(** *** Values of fields *)

Inductive value :=
| VStr (s : list byte)
| VInt (z : Z)
| VFloat (x : float).

Fixpoint strip_nul (l : list byte) : list byte :=
  match l with
  | [] => []
  | b :: r =>
      match strip_nul r with
      | [] => if Byte.eqb b x00 then [] else [b]
      | r' => b :: r'
      end
  end.

(** [int(x)] of a float *)
Definition int_of_float (x : float) : result Z :=
  match Prim2SF x with
  | S754_nan => Raise (ValueError "cannot convert float NaN to integer")
  | S754_infinity _ => Raise OverflowError
  | _ => Ok (trunc x)
  end.

(** The C integer an integer field takes a number through, on a host
    whose [long] has 64 bits: a [long] for the fields of one and two bytes;
    for the unsigned fields of four and eight bytes an [unsigned long], and
    a [long] when that fails.  A number beyond that range raises
    [OverflowError]. *)
Definition to_long (size : nat) (z : Z) : result Z :=
  if (- 2 ^ 63 <=? z) && (z <? (if (size <? 4)%nat then 2 ^ 63 else 2 ^ 64))
  then Ok z
  else Raise OverflowError.

(** The bytes of a value stored in a field (the cast of an assignment).
    An integer field takes [int(v)] through a C integer and wraps it to its
    width: a float is truncated, and a NaN, an infinity or a number beyond
    the range of the C integer raises.  A float field takes [float(v)]; an
    integer beyond the range of the floats raises.  Byte strings are cut
    or padded with NUL.  A byte string never fits a number, nor a number a
    byte string. *)
Definition encode (host : byteorder) (t : ftype) (v : value) : result (list byte) :=
  match t, v with
  | FBytes n, VStr s => Ok (firstn n (s ++ repeat x00 n))
  | FScalar t, VInt z =>
      match sc_kind t with
      | UInt =>
          (z' <- to_long (sc_size t) z ;;
           Ok (uint_bytes (order_on host t) (sc_size t) z'))%result
      | Float =>
          if PrimFloat.is_infinity (float_of_Z z) then Raise OverflowError
          else Ok (uint_bytes (order_on host t) (sc_size t) (f8_bits (float_of_Z z)))
      end
  | FScalar t, VFloat x =>
      match sc_kind t with
      | UInt =>
          (z <- int_of_float x ;;
           z' <- to_long (sc_size t) z ;;
           Ok (uint_bytes (order_on host t) (sc_size t) z'))%result
      | Float => Ok (uint_bytes (order_on host t) (sc_size t) (f8_bits x))
      end
  | _, _ => Raise (ValueError "could not convert value to field type")
  end.

Definition decode (host : byteorder) (t : ftype) (bs : list byte) : value :=
  match t with
  | FBytes _ => VStr (strip_nul bs)
  | FScalar t =>
      match sc_kind t with
      | UInt => VInt (uint_value (order_on host t) bs)
      | Float => VFloat (f8_of_bits (uint_value (order_on host t) bs))
      end
  end.

(** *** One-record structured arrays

    An array of shape [(1,)] of a record type is its buffer of
    [record_size] bytes; a field lives at the sum of the sizes of the
    fields before it. *)

Record sarray := { sa_fields : list (string * ftype); sa_buf : list byte }.

Fixpoint locate (fields : list (string * ftype)) (name : string) (off : nat)
  : option (nat * ftype) :=
  match fields with
  | [] => None
  | (n, t) :: r =>
      if String.eqb n name then Some (off, t)
      else locate r name (off + itemsize t)
  end.

(** [np.zeros((1,), dtype)] *)
Definition zeros_record (fields : list (string * ftype)) : sarray :=
  {| sa_fields := fields; sa_buf := repeat x00 (record_size fields) |}.

(** [a[name][0]]; [None] when the record has no such field. *)
Definition getfield (host : byteorder) (a : sarray) (name : string) : option value :=
  match locate (sa_fields a) name 0 with
  | Some (off, t) => Some (decode host t (firstn (itemsize t) (skipn off (sa_buf a))))
  | None => None
  end.

(** [a[name][0] = v] *)
Definition setfield (host : byteorder) (a : sarray) (name : string) (v : value)
  : result sarray :=
  match locate (sa_fields a) name 0 with
  | Some (off, t) =>
      (bs <- encode host t v ;;
       Ok {| sa_fields := sa_fields a;
             sa_buf := firstn off (sa_buf a) ++ bs
                       ++ skipn (off + itemsize t) (sa_buf a) |})%result
  | None => Raise (ValueError "no field of that name")
  end.

(** [a.tofile(f)] writes the buffer. *)
Definition tofile (a : sarray) : list byte := sa_buf a.

(** [np.fromfile(f, dtype, count=1)]: the next record of the file, or
    nothing when fewer bytes are left than a record takes. *)
Definition fromfile (fields : list (string * ftype)) (rest : list byte)
  : option sarray :=
  if (length rest <? record_size fields)%nat then None
  else Some {| sa_fields := fields; sa_buf := firstn (record_size fields) rest |}.

(** [np.zeros((n,), np.byte)] *)
Definition zeros (n : Z) : result (list byte) :=
  if n <? 0 then Raise (ValueError "negative dimensions are not allowed")
  else Ok (repeat x00 (Z.to_nat n)).

End Np.
Import Np.

(* ------------------------------------------------------------------ *)
(** ** Dates and durations *)

Module Dt.

Inductive tz := tzutc | tzlocal.

(** A [datetime] is an instant, counted in microseconds from
    1899-12-30 00:00 UTC, and its [tzinfo]; a naive one ([tzinfo] absent)
    holds the wall-clock reading instead. *)
Record datetime := { instant : Z; tzinfo : option tz }.

(** A normalised [timedelta]: [0 <= seconds < 86400] and
    [0 <= microseconds < 1000000]; [days] carries the sign. *)
Record timedelta := { days : Z; seconds : Z; microseconds : Z }.

Definition us_per_second : Z := 1000000.
Definition us_per_day : Z := 86400 * us_per_second.

Definition of_microseconds (us : Z) : timedelta :=
  {| days := us / us_per_day;
     seconds := (us mod us_per_day) / us_per_second;
     microseconds := us mod us_per_second |}.

Definition total_microseconds (d : timedelta) : Z :=
  days d * us_per_day + seconds d * us_per_second + microseconds d.

(** [a - b]: defined between two aware or two naive datetimes only. *)
Definition sub (a b : datetime) : result timedelta :=
  match tzinfo a, tzinfo b with
  | Some _, Some _ | None, None => Ok (of_microseconds (instant a - instant b))
  | _, _ => Raise (TypeError "can't subtract offset-naive and offset-aware datetimes")
  end.

(** The first and the last instant a [datetime] can hold
    (0001-01-01 00:00:00 and 9999-12-31 23:59:59.999999). *)
Definition min_instant : Z := - 693593 * us_per_day.
Definition max_instant : Z := 2958466 * us_per_day - 1.

(** [a + d] *)
Definition add (a : datetime) (d : timedelta) : result datetime :=
  let t := instant a + total_microseconds d in
  if (t <? min_instant) || (max_instant <? t)
  then Raise OverflowError
  else Ok {| instant := t; tzinfo := tzinfo a |}.


(** [datetime.utcnow()]: the reading of the clock, without [tzinfo]. *)
Definition utcnow (clock : Z) : datetime := {| instant := clock; tzinfo := None |}.






End Dt.
Import Dt.

(* ------------------------------------------------------------------ *)
(** ** blockfile.py *)

Definition origin : datetime := {| instant := 0; tzinfo := Some tzutc |}.


Definition _to_serial_date (dt : datetime) : result float :=
  (delta <- Dt.sub dt origin ;;
   Ok (float_of_Z (days delta) + float_of_Z (seconds delta) / 86400)%float)%result.

(** The conversions of header fields into metadata ([mapping]). *)
Definition mapping_beam_energy (x : Z) : float := (float_of_Z x * 1e-3)%float.
Definition mapping_camera_length (x : Z) : float := (float_of_Z x * 1e-4)%float.
Definition mapping_scan_rotation (x : Z) : float := (float_of_Z x * 1e-2)%float.

(** ['%d' % i] and ['%02d' % i] *)
Definition fmt_d (i : nat) : string := NilEmpty.string_of_uint (Nat.to_uint i).
Definition fmt_02d (i : nat) : string :=
  if (i <? 10)%nat then String "0" (fmt_d i) else fmt_d i.

Definition get_header_dtype_list (endianess : string) : list (string * dtype) :=
  let end_ := endianess in
  [ ("ID", Bytes 6);
    ("MAGIC", Code (end_ ++ "u2"));
    ("Data_offset_1", Code (end_ ++ "u4"));
    ("Data_offset_2", Code (end_ ++ "u4"));
    ("UNKNOWN1", Code (end_ ++ "u4"));
    ("DP_SZ", Code (end_ ++ "u2"));
    ("DP_rotation", Code (end_ ++ "u2"));
    ("NX", Code (end_ ++ "u2"));
    ("NY", Code (end_ ++ "u2"));
    ("Scan_rotation", Code (end_ ++ "u2"));
    ("SX", Code (end_ ++ "f8"));
    ("SY", Code (end_ ++ "f8"));
    ("Beam_energy", Code (end_ ++ "u4"));
    ("SDP", Code (end_ ++ "u2"));
    ("Camera_length", Code (end_ ++ "u4"));
    ("Aquisiton_time", Code (end_ ++ "f8")) ]
  ++ map (fun i => (("Centering_N" ++ fmt_d i)%string, Code "f8")) (xrange 8)
  ++ map (fun i => (("Distortion_N" ++ fmt_02d i)%string, Code "f8")) (xrange 14).

(** The default of the [endianess] argument of every function. *)
Definition default_endianess : string := "<".

(** *** Dictionaries of header fields *)

Definition dict := list (string * value).

Fixpoint dict_get (d : dict) (key : string) : option value :=
  match d with
  | [] => None
  | (k, v) :: r => if String.eqb k key then Some v else dict_get r key
  end.

(** Modelled from the spec: [sarray2dict] of hyperspy.misc.array_tools, the
    conversion of the header record into a mapping of field name to value,
    in the order of the fields. *)
Definition sarray2dict (host : byteorder) (a : sarray) : dict :=
  flat_map (fun f => match getfield host a (fst f) with
                     | Some v => [(fst f, v)]
                     | None => []
                     end) (sa_fields a).

Fixpoint assign_fields (host : byteorder) (names : list string) (d : dict)
  (a : sarray) : result sarray :=
  match names with
  | [] => Ok a
  | n :: r =>
      match dict_get d n with
      | Some v => (a' <- setfield host a n v ;; assign_fields host r d a')%result
      | None => assign_fields host r d a
      end
  end.

(** Modelled from the spec: [dict2sarray] of hyperspy.misc.array_tools, the
    conversion of a mapping of field name to value into the header record:
    every field of the record the mapping names is assigned, the others
    keep their value; entries that name no field are ignored.  With a
    [dtype] and no array it starts from a zeroed record. *)
Definition dict2sarray (host : byteorder) (d : dict) (a : sarray) : result sarray :=
  assign_fields host (map fst (sa_fields a)) d a.

Definition dict2sarray_dtype (host : byteorder) (d : dict)
  (dtype : list (string * dtype)) : result sarray :=
  (fields <- np_dtype dtype ;; dict2sarray host d (zeros_record fields))%result.

(** Returns a header pre-populated with default values.  The record type is
    built from [get_header_dtype_list()], without the [endianess] given. *)
Definition get_default_header (host : byteorder) (clock : Z) (endianess : string)
  : result sarray :=
  (dt <- np_dtype (get_header_dtype_list default_endianess) ;;
   let header := zeros_record dt in
   header <- setfield host header "ID" (VStr (bytes_of_string "IMGBLO")) ;;
   header <- setfield host header "MAGIC" (VInt 258) ;;
   header <- setfield host header "Data_offset_1" (VInt 4096) ;;
   header <- setfield host header "UNKNOWN1" (VInt 131141) ;;
   t <- _to_serial_date (utcnow clock) ;;
   setfield host header "Aquisiton_time" (VFloat t))%result.

(** *** The signal *)

(** Modelled from the spec: the signal abstraction of hyperspy, as far as
    the codec reads it.  The data is the C-order buffer of the array of
    shape [(NY, NX, H, W)]; [navigation_shape] is [(NX, NY)] and
    [signal_shape] is [(W, H)]; the scales are those of
    [navigation_axes[0]], [navigation_axes[1]] and of [signal_axes[0]],
    [signal_axes[1]]; [original_metadata] holds the entry
    ['blockfile_header'] when the signal has one. *)
Record signal := {
  data : list Z;
  navigation_shape : Z * Z;
  signal_shape : Z * Z;
  navigation_scales : float * float;
  signal_scales : float * float;
  original_metadata : option dict
}.

Definition NonSquareFrame : exn :=
  ValueError "Blockfiles require signal shape to be square!".

Definition FrameCountExceeded : exn :=
  ValueError "Unexpected navigation size.".

(** An integer field of a record, as [int(a[name])] reads it. *)
Definition field_int (host : byteorder) (a : sarray) (name : string) : result Z :=
  match getfield host a name with
  | Some (VInt z) => Ok z
  | Some _ => Raise (TypeError "not an integer field")
  | None => Raise (ValueError "no field of that name")
  end.

Definition get_header_from_signal (host : byteorder) (clock : Z) (s : signal)
  (endianess : string) : result (sarray * value) :=
  ('(header, note) <-
     match original_metadata s with
     | Some blockfile_header =>
         header <- dict2sarray_dtype host blockfile_header
                     (get_header_dtype_list endianess) ;;
         match dict_get blockfile_header "Note" with
         | Some note => Ok (header, note)
         | None => Raise (KeyError "Note")
         end
     | None =>
         header <- get_default_header host clock endianess ;;
         Ok (header, VStr [])
     end ;;
   let '(NX, NY) := navigation_shape s in
   let SX := fst (navigation_scales s) in
   let SY := fst (navigation_scales s) in
   let DP_SZ := signal_shape s in
   if negb (fst DP_SZ =? snd DP_SZ) then Raise NonSquareFrame
   else
     let DP_SZ := fst DP_SZ in
     SDP <- (if PrimFloat.eqb (fst (signal_scales s)) 0 then Raise ZeroDivisionError
             else Ok (100 / fst (signal_scales s))%float) ;;
     d1 <- field_int host header "Data_offset_1" ;;
     (* unsigned 32-bit array arithmetic *)
     let offset2 := wrap 4 (NX * NY + d1) in
     let offset2 := wrap 4 (offset2 + offset2 mod 16) in
     header <- dict2sarray host
                 [ ("NX", VInt NX); ("NY", VInt NY);
                   ("DP_SZ", VInt DP_SZ);
                   ("SX", VFloat SX); ("SY", VFloat SY);
                   ("SDP", VFloat SDP);
                   ("Data_offset_2", VInt offset2) ] header ;;
     Ok (header, note))%result.

(** *** Reading *)

(** The scale of an axis: a float, or [traits.api.Undefined]. *)
Inductive scale_t :=
| Scale (x : float)
| Undefined.

Record axis := {
  size : Z;
  index_in_array : nat;
  name : string;
  scale : scale_t;
  offset : float;
  units : string
}.

Record ndarray := { shape : list Z; buf : list byte }.

(** What [file_reader] returns: the data, the axes and the header with its
    note (['original_metadata']['blockfile_header']).  The entries
    ['metadata'] and ['mapping'] of the dictionary do not depend on the
    contents of the file and are left out. *)
Record reading := {
  r_data : ndarray;
  r_axes : list axis;
  r_header : dict
}.

Definition dict_int (d : dict) (key : string) : result Z :=
  match dict_get d key with
  | Some (VInt z) => Ok z
  | Some _ => Raise (TypeError "not an integer")
  | None => Raise (KeyError key)
  end.

Definition dict_float (d : dict) (key : string) : result float :=
  match dict_get d key with
  | Some (VFloat x) => Ok x
  | Some _ => Raise (TypeError "not a float")
  | None => Raise (KeyError key)
  end.

Definition getitem {A} (l : list A) (i : Z) : result A :=
  match Py.index l i with
  | Some a => Ok a
  | None => Raise (ValueError "list index out of range")
  end.

Fixpoint mapM {A B} (f : A -> result B) (l : list A) : result (list B) :=
  match l with
  | [] => Ok []
  | a :: r => (b <- f a ;; r' <- mapM f r ;; Ok (b :: r'))%result
  end.

(** The [count] consecutive blocks of [n] elements of a buffer. *)
Fixpoint chunks {A} (n count : nat) (l : list A) : list (list A) :=
  match count with
  | O => []
  | S k => firstn n l :: chunks n k (skipn n l)
  end.

(** The file is the list of its bytes, [None] when it does not exist. *)
Definition file_reader (host : byteorder) (file : option (list byte))
  (endianess : string) : result reading :=
  (f <- match file with Some f => Ok f | None => Raise IOError end ;;
   dt <- np_dtype (get_header_dtype_list endianess) ;;
   (* np.fromfile(f, dtype, count=1): with fewer bytes than a record there
      is no record, and the length handed to f.read is not an integer *)
   header <- match fromfile dt f with
             | Some a => Ok (sarray2dict host a)
             | None => Raise (TypeError "an integer is required")
             end ;;
   let tell := Z.of_nat (record_size dt) in
   d1 <- dict_int header "Data_offset_1" ;;
   (* f.read(n): to the end of the file when n is negative *)
   let note :=
     if d1 - tell <? 0 then skipn (record_size dt) f
     else firstn (Z.to_nat (d1 - tell)) (skipn (record_size dt) f) in
   let header := header ++ [("Note", VStr note)] in
   NX <- dict_int header "NX" ;;
   NY <- dict_int header "NY" ;;
   DP_SZ <- dict_int header "DP_SZ" ;;
   sdp <- dict_int header "SDP" ;;
   let SDP := if sdp =? 0 then Undefined
              else Scale (100 / float_of_Z sdp)%float in
   offset2 <- dict_int header "Data_offset_2" ;;
   (* DP_SZ*DP_SZ is a product of unsigned 16-bit scalars *)
   let frame := wrap 2 (DP_SZ * DP_SZ) + 6 in
   (* np.memmap(f, mode='c', offset=offset2, shape=(NY, NX, frame)) *)
   if Z.of_nat (length f) <? offset2 + NY * NX * frame
   then Raise (ValueError "mmap length is greater than file size")
   else
     let mm := firstn (Z.to_nat (NY * NX * frame)) (skipn (Z.to_nat offset2) f) in
     (* data[:, :, 6:] *)
     let frames := map (skipn 6) (chunks (Z.to_nat frame) (Z.to_nat (NY * NX)) mm) in
     (* data.reshape((NY, NX, DP_SZ, DP_SZ), order='C'): the number of
        elements has to stay the same *)
     if negb (NY * NX * wrap 2 (DP_SZ * DP_SZ) =? NY * NX * (DP_SZ * DP_SZ))
     then Raise (ValueError "total size of new array must be unchanged")
     else
       let data := {| shape := [NY; NX; DP_SZ; DP_SZ]; buf := concat frames |} in
       let units := ["nm"; "cm"; "cm"; "nm"] in
       let names := ["x"; "dy"; "dx"; "y"] in
       SX <- dict_float header "SX" ;;
       SY <- dict_float header "SY" ;;
       let scales := [Scale SX; SDP; SDP; Scale SY] in
       let dim := 4 in
       axes <- mapM (fun i =>
                 sz <- getitem (shape data) (Z.of_nat i) ;;
                 nm <- getitem names (Z.of_nat i + 3 - dim) ;;
                 sc <- getitem scales (Z.of_nat i + 3 - dim) ;;
                 un <- getitem units (Z.of_nat i + 3 - dim) ;;
                 Ok {| size := sz;
                       index_in_array := i;
                       name := nm;
                       scale := sc;
                       offset := 0.0%float;
                       units := un |}) (xrange (Z.to_nat dim)) ;;
       Ok {| r_data := data; r_axes := axes; r_header := header |})%result.

(** *** Writing *)

(** An action on the file being written: the bytes written so far are
    threaded through, and stay as they are when an exception is raised. *)
Definition io (A : Type) : Type := list byte -> result A * list byte.

Definition io_ret {A} (a : A) : io A := fun f => (Ok a, f).

Definition io_bind {A B} (m : io A) (k : A -> io B) : io B :=
  fun f => match m f with
           | (Ok a, f') => k a f'
           | (Raise e, f') => (Raise e, f')
           end.

Definition io_lift {A} (r : result A) : io A := fun f => (r, f).

(** [f.write(bs)] and [a.tofile(f)] *)
Definition io_write (bs : list byte) : io unit := fun f => (Ok tt, f ++ bs).

(** [f.tell()] *)
Definition io_tell : io Z := fun f => (Ok (Z.of_nat (length f)), f).

Declare Scope io_scope.
Delimit Scope io_scope with io.
Notation "x <- m ;; k" := (io_bind m (fun x => k))
  (at level 61, m at next level, right associativity) : io_scope.
Notation "m ;; k" := (io_bind m (fun _ => k))
  (at level 61, right associativity) : io_scope.

(** Modelled from the spec: [signal._iterate_signal()], the frames of the
    signal in scan order, one for every position of the navigation grid. *)
Definition _iterate_signal (s : signal) : list (list Z) :=
  let '(NX, NY) := navigation_shape s in
  let '(W, H) := signal_shape s in
  chunks (Z.to_nat (H * W)) (Z.to_nat (NX * NY)) (data s).

(** [img.astype('u1')] *)
Definition astype_u1 (img : list Z) : list byte := map u8 img.

(** Modelled from the spec: [signal.mean(2j).mean(2j).data.astype('u1')],
    the virtual bright field: the mean pixel value of every frame, cast to
    unsigned 8-bit, one byte for every position of the navigation grid. *)
Definition virtual_bright_field (s : signal) : list byte :=
  let '(W, H) := signal_shape s in
  map (fun img => u8 (fold_right Z.add 0 img / (H * W))) (_iterate_signal s).

(** The note and the padding up to [Data_offset_1]. *)
Definition write_note (d1 : Z) (note : value) : io unit :=
  (n <- io_lift (match note with
                 | VStr n => Ok n
                 | _ => Raise (TypeError "object has no len()")
                 end) ;;
   pos <- io_tell ;;
   let n := if Z.of_nat (length n) >? d1 - pos
            then slice_to n (d1 - pos - Z.of_nat (length n))
            else n in
   io_write n ;;
   pos <- io_tell ;;
   zero_pad <- io_lift (zeros (d1 - pos)) ;;
   io_write zero_pad)%io.

(** The loop over the frames: the frame head, the frame, and the count. *)
Fixpoint write_frames (host : byteorder) (limit : Z) (imgs : list (list Z))
  (dp_head : sarray) : io unit :=
  match imgs with
  | [] => io_ret tt
  | img :: rest =>
      (io_write (tofile dp_head) ;;
       io_write (astype_u1 img) ;;
       id <- io_lift (field_int host dp_head "ID") ;;
       dp_head <- io_lift (setfield host dp_head "ID" (VInt (wrap 4 (id + 1)))) ;;
       id <- io_lift (field_int host dp_head "ID") ;;
       if id >? limit then io_lift (Raise FrameCountExceeded)
       else write_frames host limit rest dp_head)%io
  end.

(** The virtual bright field, the padding up to [Data_offset_2] and the
    stack of frames. *)
Definition write_stack (host : byteorder) (s : signal) (endianess : string)
  (header : sarray) : io unit :=
  (io_lift (np_dtype [("", Code (endianess ++ "u1"))]) ;;
   io_write (virtual_bright_field s) ;;
   d2 <- io_lift (field_int host header "Data_offset_2") ;;
   pos <- io_tell ;;
   zero_pad <- io_lift (zeros (d2 - pos)) ;;
   io_write zero_pad ;;
   (* full data stack *)
   dt <- io_lift (np_dtype [("MAGIC", Code (endianess ++ "u2"));
                            ("ID", Code (endianess ++ "u4"))]) ;;
   let dp_head := zeros_record dt in
   dp_head <- io_lift (setfield host dp_head "MAGIC" (VInt 21930)) ;;
   nx <- io_lift (field_int host header "NX") ;;
   ny <- io_lift (field_int host header "NY") ;;
   (* header['NX'] * header['NY'] is a product of unsigned 16-bit arrays *)
   write_frames host (wrap 2 (nx * ny)) (_iterate_signal s) dp_head)%io.

(** Everything written once the file is open. *)
Definition write_blockfile (host : byteorder) (s : signal) (endianess : string)
  (header : sarray) (note : value) : io unit :=
  (io_write (tofile header) ;;
   d1 <- io_lift (field_int host header "Data_offset_1") ;;
   write_note d1 note ;;
   write_stack host s endianess header)%io.

(** [file_writer(filename, signal, endianess=...)]: the outcome and the
    contents of the file afterwards ([dest] is the file before the call,
    [None] when there is none).  The header is derived before the file is
    opened; opening it for writing empties it. *)
Definition file_writer (host : byteorder) (clock : Z) (dest : option (list byte))
  (s : signal) (endianess : string) : result unit * option (list byte) :=
  match get_header_from_signal host clock s endianess with
  | Raise e => (Raise e, dest)
  | Ok (header, note) =>
      let '(r, f) := write_blockfile host s endianess header note [] in
      (r, Some f)
  end.

(* ------------------------------------------------------------------ *)
(** ** Notions used in the statements *)

(** A record whose buffer has the size of its type. *)
Definition well_formed (a : sarray) : Prop :=
  length (sa_buf a) = record_size (sa_fields a).

(** The record type of the header for a byte order [o] of the prefixed
    fields ([None]: the order of the host). *)
Definition header_record (o : option byteorder) : list (string * ftype) :=
  let t k n := FScalar {| sc_order := o; sc_kind := k; sc_size := n |} in
  let native := FScalar {| sc_order := None; sc_kind := Float; sc_size := 8 |} in
  [ ("ID", FBytes 6); ("MAGIC", t UInt 2%nat);
    ("Data_offset_1", t UInt 4%nat); ("Data_offset_2", t UInt 4%nat);
    ("UNKNOWN1", t UInt 4%nat); ("DP_SZ", t UInt 2%nat);
    ("DP_rotation", t UInt 2%nat); ("NX", t UInt 2%nat); ("NY", t UInt 2%nat);
    ("Scan_rotation", t UInt 2%nat); ("SX", t Float 8%nat); ("SY", t Float 8%nat);
    ("Beam_energy", t UInt 4%nat); ("SDP", t UInt 2%nat);
    ("Camera_length", t UInt 4%nat); ("Aquisiton_time", t Float 8%nat) ]
  ++ map (fun i => (("Centering_N" ++ fmt_d i)%string, native)) (xrange 8)
  ++ map (fun i => (("Distortion_N" ++ fmt_02d i)%string, native)) (xrange 14).

Definition order_of_endianess (e : string) : option byteorder :=
  if String.eqb e "<" then Some LittleEndian
  else if String.eqb e ">" then Some BigEndian
  else None.
(** The exception of a naive [datetime] met with an aware one. *)
Definition naive_minus_aware : exn :=
  TypeError "can't subtract offset-naive and offset-aware datetimes".

(** The dictionary of the fields [get_header_from_signal] derives. *)
Definition derived_fields (s : signal) (d1 : Z) : dict :=
  let '(NX, NY) := navigation_shape s in
  let offset2 := wrap 4 (NX * NY + d1) in
  [ ("NX", VInt NX); ("NY", VInt NY);
    ("DP_SZ", VInt (fst (signal_shape s)));
    ("SX", VFloat (fst (navigation_scales s)));
    ("SY", VFloat (fst (navigation_scales s)));
    ("SDP", VFloat (100 / fst (signal_scales s))%float);
    ("Data_offset_2", VInt (wrap 4 (offset2 + offset2 mod 16))) ].

(** *** Sample inputs *)

(** A header dictionary as a previous read leaves it in
    [original_metadata], with [Data_offset_1 = d1] and a note. *)
Definition sample_blockfile_header (d1 : Z) (note : string) : dict :=
  [ ("ID", VStr (bytes_of_string "IMGBLO"));
    ("MAGIC", VInt 258);
    ("Data_offset_1", VInt d1);
    ("UNKNOWN1", VInt 131141);
    ("Note", VStr (bytes_of_string note)) ].

(** A cube of shape [(NY=3, NX=2, 4, 4)] holding 1, 2, ..., 96, with scan
    steps 1.5 (x) and 2.5 (y) and a reciprocal scale of 1.0. *)
Definition sample_signal (om : option dict) : signal :=
  {| data := map Z.of_nat (seq 1 96);
     navigation_shape := (2, 3);
     signal_shape := (4, 4);
     navigation_scales := (1.5%float, 2.5%float);
     signal_scales := (1%float, 1%float);
     original_metadata := om |}.

Definition sample_header (host : byteorder) (om : option dict) (e : string) : sarray :=
  match get_header_from_signal host 0 (sample_signal om) e with
  | Ok (header, _) => header
  | Raise _ => zeros_record []
  end.

Definition sample_file (host : byteorder) (om : option dict) (e : string) : list byte :=
  match file_writer host 0 None (sample_signal om) e with
  | (_, Some f) => f
  | (_, None) => []
  end.

(** *** The frame stack *)

(** The six bytes before a frame: the magic and the serial, both in the
    byte order [o]. *)
Definition frame_head (o : byteorder) (serial : Z) : list byte :=
  uint_bytes o 2 21930 ++ uint_bytes o 4 serial.

(** Frames with their heads, the serials counting up from [serial]. *)
Fixpoint framed (o : byteorder) (serial : Z) (imgs : list (list Z)) : list byte :=
  match imgs with
  | [] => []
  | img :: rest => frame_head o serial ++ astype_u1 img ++ framed o (serial + 1) rest
  end.

(** The record [dp_head] of the writer when its [ID] holds [serial]. *)
Definition dp_head_at (host : byteorder) (o : option byteorder) (serial : Z) : sarray :=
  let t n := FScalar {| sc_order := o; sc_kind := UInt; sc_size := n |} in
  {| sa_fields := [("MAGIC", t 2%nat); ("ID", t 4%nat)];
     sa_buf := frame_head (match o with Some o' => o' | None => host end) serial |}.

(** Every step of the writer appends to the file. *)
Definition appends {A} (m : io A) : Prop :=
  forall f, exists rest, snd (m f) = f ++ rest.

(** A header dictionary of a file that is not a blockfile: another tag and
    another magic. *)
Definition foreign_blockfile_header : dict :=
  [ ("ID", VStr (bytes_of_string "NOTBLO"));
    ("MAGIC", VInt 0);
    ("Data_offset_1", VInt 4096);
    ("Note", VStr []) ].

(** The file the writer leaves for the sample cube and the header
    dictionary of the sample, and what the reader makes of it. *)
Definition sample_blockfile : list byte :=
  sample_file LittleEndian (Some (sample_blockfile_header 4096 "")) "<".

Definition sample_reading : reading :=
  match file_reader LittleEndian (Some sample_blockfile) "<" with
  | Ok r => r
  | Raise _ => {| r_data := {| shape := []; buf := [] |}; r_axes := []; r_header := [] |}
  end.


(** The byte-order characters [endianess] can be, and the byte order a
    call with [endianess] stores the prefixed fields in. *)
Definition valid_endianess (e : string) : Prop :=
  e = "<" \/ e = ">" \/ e = "=" \/ e = "|" \/ e = "".

Definition order_for (host : byteorder) (e : string) : byteorder :=
  match order_of_endianess e with Some o => o | None => host end.

(** A value of the kind of a field and within its range, as a header
    read from a file holds it: a byte string for a byte field, an integer
    from 0 up to the width of the field (and within a C [long]) for an
    unsigned field, a float for a float field. *)
Definition fits (t : ftype) (v : value) : bool :=
  match t, v with
  | FBytes _, VStr _ => true
  | FScalar t, VInt z =>
      match sc_kind t with
      | UInt => (0 <=? z) && (z <? 2 ^ (8 * Z.of_nat (sc_size t))) && (z <? 2 ^ 63)
      | Float => false
      end
  | FScalar t, VFloat _ =>
      match sc_kind t with
      | UInt => false
      | Float => true
      end
  | _, _ => false
  end.

(** A dictionary whose entries fit the fields of a record type they
    name. *)
Definition fits_record (fields : list (string * ftype)) (d : dict) : bool :=
  forallb (fun f => match dict_get d (fst f) with
                    | Some v => fits (snd f) v
                    | None => true
                    end) fields.

(** *** Further inputs and notions *)

(** The header [get_header_from_signal] derives for a signal, when it
    derives one. *)
Definition header_of (host : byteorder) (clock : Z) (s : signal) (e : string) : sarray :=
  match get_header_from_signal host clock s e with
  | Ok (header, _) => header
  | Raise _ => zeros_record []
  end.

(** A signal of one-pixel frames on a grid of [NX] by [NY] positions, all
    pixels 7, with the sample header and [Data_offset_1 = d1]. *)
Definition grid_signal (NX NY d1 : Z) : signal :=
  {| data := repeat 7 (Z.to_nat (NX * NY));
     navigation_shape := (NX, NY);
     signal_shape := (1, 1);
     navigation_scales := (1%float, 1%float);
     signal_scales := (1%float, 1%float);
     original_metadata := Some (sample_blockfile_header d1 "") |}.



(** The case of a [bind] that returned. *)
Ltac bind_ok H :=
  match type of H with
  | Py.bind ?m _ = Ok _ =>
      let E := fresh "E" in
      destruct m eqn:E; cbn [Py.bind] in H; [|discriminate H]
  end.

(* ------------------------------------------------------------------ *)
(** ** Lemmas: bytes and unsigned integers *)

Lemma Z_of_byte_range (b : byte) : 0 <= Z_of_byte b < 256.
Proof.
  unfold Z_of_byte. pose proof (Byte.to_N_bounded b). lia.
Qed.

Lemma Z_of_byte_u8 (z : Z) : Z_of_byte (u8 z) = z mod 256.
Proof.
  unfold u8, Z_of_byte.
  assert (Hb : 0 <= z mod 256 < 256) by (apply Z.mod_pos_bound; lia).
  destruct (Byte.of_N (Z.to_N (z mod 256))) as [b|] eqn:E.
  - apply Byte.to_of_N in E. rewrite E. lia.
  - apply Byte.of_N_None_iff in E. lia.
Qed.

Lemma u8_Z_of_byte (b : byte) : u8 (Z_of_byte b) = b.
Proof.
  unfold u8, Z_of_byte.
  pose proof (Byte.to_N_bounded b) as Hb.
  rewrite Z.mod_small by lia.
  rewrite N2Z.id, Byte.of_to_N. reflexivity.
Qed.

Lemma length_le_bytes (n : nat) (z : Z) : length (le_bytes n z) = n.
Proof.
  revert z. induction n as [|n IH]; intro z; simpl; [reflexivity|].
  now rewrite IH.
Qed.

Lemma length_uint_bytes (o : byteorder) (n : nat) (z : Z) :
  length (uint_bytes o n z) = n.
Proof.
  destruct o; simpl; [|rewrite length_rev]; apply length_le_bytes.
Qed.

Lemma le_value_range (bs : list byte) :
  0 <= le_value bs < 256 ^ Z.of_nat (length bs).
Proof.
  induction bs as [|b r IH]; cbn [le_value length].
  - simpl. lia.
  - rewrite Nat2Z.inj_succ, Z.pow_succ_r by lia.
    pose proof (Z_of_byte_range b). lia.
Qed.

Lemma le_value_le_bytes (n : nat) (z : Z) :
  le_value (le_bytes n z) = z mod 256 ^ Z.of_nat n.
Proof.
  revert z. induction n as [|n IH]; intro z.
  - simpl. now rewrite Z.mod_1_r.
  - cbn [le_bytes le_value].
    rewrite IH, Z_of_byte_u8, Nat2Z.inj_succ, Z.pow_succ_r by lia.
    rewrite Z.rem_mul_r by lia. reflexivity.
Qed.

Lemma wrap_pow (n : nat) (z : Z) : wrap n z = z mod 256 ^ Z.of_nat n.
Proof.
  unfold wrap. replace 256 with (2 ^ 8) by reflexivity.
  rewrite <- Z.pow_mul_r by lia. reflexivity.
Qed.

Lemma uint_value_uint_bytes (o : byteorder) (n : nat) (z : Z) :
  uint_value o (uint_bytes o n z) = wrap n z.
Proof.
  rewrite wrap_pow.
  destruct o; simpl; [|rewrite rev_involutive]; apply le_value_le_bytes.
Qed.

Lemma uint_value_range (o : byteorder) (bs : list byte) :
  0 <= uint_value o bs < 256 ^ Z.of_nat (length bs).
Proof.
  destruct o; simpl; [apply le_value_range|].
  rewrite <- (length_rev bs). apply le_value_range.
Qed.

Lemma wrap_small (n : nat) (z : Z) :
  0 <= z < 2 ^ (8 * Z.of_nat n) -> wrap n z = z.
Proof. intro H. unfold wrap. now apply Z.mod_small. Qed.

Lemma wrap_range (n : nat) (z : Z) : 0 <= wrap n z < 2 ^ (8 * Z.of_nat n).
Proof. unfold wrap. apply Z.mod_pos_bound. apply Z.pow_pos_nonneg; lia. Qed.

(** ** Lemmas: windows of a buffer *)

Lemma window_same {A} (off : nat) (bs l : list A) :
  (off + length bs <= length l)%nat ->
  firstn (length bs) (skipn off (firstn off l ++ bs ++ skipn (off + length bs) l)) = bs.
Proof.
  intro H.
  rewrite skipn_app, length_firstn, Nat.min_l by lia.
  rewrite Nat.sub_diag. simpl skipn at 2.
  rewrite (skipn_all2 (firstn off l)) by (rewrite length_firstn; lia).
  simpl. rewrite firstn_app, Nat.sub_diag, firstn_all. simpl.
  now rewrite app_nil_r.
Qed.

Lemma window_other {A} (off n off' : nat) (bs l : list A) :
  (off + length bs <= length l)%nat ->
  (off' + n <= off \/ off + length bs <= off')%nat ->
  firstn n (skipn off' (firstn off l ++ bs ++ skipn (off + length bs) l))
  = firstn n (skipn off' l).
Proof.
  intros Hl [H|H].
  - rewrite firstn_skipn_comm, firstn_app, length_firstn, Nat.min_l by lia.
    replace (off' + n - off)%nat with 0%nat by lia.
    simpl firstn at 3. rewrite app_nil_r.
    rewrite firstn_firstn, Nat.min_l by lia.
    now rewrite <- firstn_skipn_comm.
  - rewrite skipn_app, length_firstn, Nat.min_l by lia.
    rewrite (skipn_all2 (firstn off l)) by (rewrite length_firstn; lia).
    simpl app.
    rewrite skipn_app.
    rewrite (skipn_all2 bs) by lia. simpl app.
    rewrite skipn_skipn.
    f_equal. f_equal. lia.
Qed.

Lemma length_update {A} (off : nat) (bs l : list A) :
  (off + length bs <= length l)%nat ->
  length (firstn off l ++ bs ++ skipn (off + length bs) l) = length l.
Proof.
  intro H. rewrite !length_app, length_firstn, length_skipn. lia.
Qed.

(** ** Lemmas: structured arrays *)


Lemma record_size_cons (f : string * ftype) (r : list (string * ftype)) :
  record_size (f :: r) = (itemsize (snd f) + record_size r)%nat.
Proof. reflexivity. Qed.

Lemma locate_bound fields : forall name off o t,
  locate fields name off = Some (o, t) ->
  (off <= o /\ o + itemsize t <= off + record_size fields)%nat.
Proof.
  induction fields as [|[k t'] r IH]; intros name off o t H; simpl in H.
  - discriminate.
  - rewrite record_size_cons. simpl snd.
    destruct (String.eqb k name).
    + inversion H; subst. lia.
    + apply IH in H. lia.
Qed.

Lemma locate_disjoint fields : forall n m off on tn om tm,
  n <> m ->
  locate fields n off = Some (on, tn) ->
  locate fields m off = Some (om, tm) ->
  (on + itemsize tn <= om \/ om + itemsize tm <= on)%nat.
Proof.
  induction fields as [|[k t'] r IH]; intros n m off on tn om tm Hnm Hn Hm;
    simpl in Hn, Hm.
  - discriminate.
  - destruct (String.eqb k n) eqn:En; destruct (String.eqb k m) eqn:Em.
    + apply String.eqb_eq in En, Em. congruence.
    + inversion Hn; subst. apply locate_bound in Hm. lia.
    + inversion Hm; subst. apply locate_bound in Hn. lia.
    + eapply IH; eauto.
Qed.

Lemma encode_length host t v bs :
  encode host t v = Ok bs -> length bs = itemsize t.
Proof.
  destruct t as [n|t], v as [s|z|x]; simpl; try discriminate.
  - intro H. inversion H; subst.
    rewrite length_firstn, length_app, repeat_length. lia.
  - destruct (sc_kind t).
    + destruct (to_long (sc_size t) z); cbn [bind]; intro H; inversion H.
      apply length_uint_bytes.
    + destruct (PrimFloat.is_infinity (float_of_Z z)); intro H; inversion H.
      apply length_uint_bytes.
  - destruct (sc_kind t).
    + destruct (int_of_float x) as [z|]; cbn [bind]; [|discriminate].
      destruct (to_long (sc_size t) z); cbn [bind]; intro H; inversion H.
      apply length_uint_bytes.
    + intro H; inversion H; apply length_uint_bytes.
Qed.

Lemma to_long_ok size z z' : to_long size z = Ok z' -> z' = z.
Proof.
  unfold to_long. destruct (_ && _); intro H; now inversion H.
Qed.

Lemma to_long_small size z :
  0 <= z < 2 ^ 63 -> to_long size z = Ok z.
Proof.
  intro H. unfold to_long.
  assert (2 ^ 63 < 2 ^ 64) by reflexivity.
  destruct (- 2 ^ 63 <=? z) eqn:A; [|apply Z.leb_gt in A; lia].
  destruct (z <? (if (size <? 4)%nat then 2 ^ 63 else 2 ^ 64)) eqn:B;
    [reflexivity|].
  apply Z.ltb_ge in B. destruct (size <? 4)%nat; lia.
Qed.

Lemma setfield_fields host a n v a' :
  setfield host a n v = Ok a' -> sa_fields a' = sa_fields a.
Proof.
  unfold setfield. destruct (locate _ _ _) as [[off t]|]; [|discriminate].
  destruct (encode host t v); simpl; [|discriminate].
  intro H. inversion H. reflexivity.
Qed.

Lemma setfield_well_formed host a n v a' :
  well_formed a -> setfield host a n v = Ok a' -> well_formed a'.
Proof.
  unfold setfield, well_formed.
  destruct (locate _ _ _) as [[off t]|] eqn:L; [|discriminate].
  destruct (encode host t v) as [bs|] eqn:E; simpl; [|discriminate].
  intros W H. inversion H; subst; cbn [sa_fields sa_buf].
  apply encode_length in E. apply locate_bound in L.
  rewrite <- E. rewrite length_update; [assumption|]. lia.
Qed.

Lemma getfield_setfield_same host a n v a' :
  well_formed a -> setfield host a n v = Ok a' ->
  exists off t bs,
    locate (sa_fields a) n 0 = Some (off, t) /\
    encode host t v = Ok bs /\
    getfield host a' n = Some (decode host t bs).
Proof.
  unfold setfield, getfield, well_formed.
  destruct (locate _ _ _) as [[off t]|] eqn:L; [|discriminate].
  destruct (encode host t v) as [bs|] eqn:E; simpl; [|discriminate].
  intros W H. inversion H; subst; cbn [sa_fields sa_buf]. rewrite L.
  exists off, t, bs. split; [reflexivity|]. split; [assumption|].
  pose proof (encode_length _ _ _ _ E) as Hl. apply locate_bound in L.
  rewrite <- Hl. rewrite window_same; [reflexivity|]. lia.
Qed.

Lemma getfield_setfield_other host a n m v a' :
  well_formed a -> n <> m -> setfield host a m v = Ok a' ->
  getfield host a' n = getfield host a n.
Proof.
  unfold setfield, getfield, well_formed.
  destruct (locate (sa_fields a) m 0) as [[off t]|] eqn:L; [|discriminate].
  destruct (encode host t v) as [bs|] eqn:E; simpl; [|discriminate].
  intros W Hnm H. inversion H; subst; cbn [sa_fields sa_buf].
  destruct (locate (sa_fields a) n 0) as [[off' t']|] eqn:L'; [|reflexivity].
  pose proof (encode_length _ _ _ _ E) as Hl.
  pose proof (locate_disjoint _ _ _ _ _ _ _ _ Hnm L' L) as D.
  apply locate_bound in L.
  rewrite <- Hl. rewrite window_other; [reflexivity| lia | lia].
Qed.

Lemma assign_fields_fields host names d : forall a a',
  assign_fields host names d a = Ok a' -> sa_fields a' = sa_fields a.
Proof.
  induction names as [|n r IH]; intros a a' H; simpl in H.
  - now inversion H.
  - destruct (dict_get d n) as [v|]; [|now apply IH].
    destruct (setfield host a n v) as [a1|] eqn:S; simpl in H; [|discriminate].
    apply IH in H. rewrite H. eapply setfield_fields; eauto.
Qed.

Lemma assign_fields_well_formed host names d : forall a a',
  well_formed a -> assign_fields host names d a = Ok a' -> well_formed a'.
Proof.
  induction names as [|n r IH]; intros a a' W H; simpl in H.
  - now inversion H; subst.
  - destruct (dict_get d n) as [v|]; [|now apply (IH a)].
    destruct (setfield host a n v) as [a1|] eqn:S; simpl in H; [|discriminate].
    apply (IH a1); [|assumption]. eapply setfield_well_formed; eauto.
Qed.

(** A field the dictionary does not name keeps its value. *)
Lemma assign_fields_untouched host names d n : forall a a',
  well_formed a -> dict_get d n = None ->
  assign_fields host names d a = Ok a' ->
  getfield host a' n = getfield host a n.
Proof.
  induction names as [|k r IH]; intros a a' W Hn H; simpl in H.
  - now inversion H.
  - destruct (dict_get d k) as [v|] eqn:Dk; [|now apply IH].
    destruct (setfield host a k v) as [a1|] eqn:S; simpl in H; [|discriminate].
    rewrite (IH a1 a'); [| eapply setfield_well_formed; eauto | assumption | assumption].
    eapply getfield_setfield_other; eauto.
    intro; subst; congruence.
Qed.

(** So does a field that is not among the names assigned. *)
Lemma assign_fields_skipped host names d n : forall a a',
  well_formed a -> ~ In n names ->
  assign_fields host names d a = Ok a' ->
  getfield host a' n = getfield host a n.
Proof.
  induction names as [|k r IH]; intros a a' W Hn H; simpl in H.
  - now inversion H.
  - assert (Hr : ~ In n r) by (intro; apply Hn; now right).
    assert (Hk : n <> k) by (intro; apply Hn; now left).
    destruct (dict_get d k) as [v|]; [|now apply IH].
    destruct (setfield host a k v) as [a1|] eqn:S; simpl in H; [|discriminate].
    rewrite (IH a1 a'); [| eapply setfield_well_formed; eauto | assumption | assumption].
    eapply getfield_setfield_other; eauto.
Qed.

(** A field the dictionary names holds the value of the dictionary, cast
    to the type of the field. *)
Lemma assign_fields_assigned host names d n v : forall a a',
  well_formed a -> NoDup names -> In n names -> dict_get d n = Some v ->
  assign_fields host names d a = Ok a' ->
  exists off t bs,
    locate (sa_fields a) n 0 = Some (off, t) /\
    encode host t v = Ok bs /\
    getfield host a' n = Some (decode host t bs).
Proof.
  induction names as [|k r IH]; intros a a' W ND Hin Hn H; simpl in H.
  - destruct Hin.
  - inversion ND as [|? ? Hk ND']; subst.
    destruct Hin as [ -> | Hin ].
    + rewrite Hn in H.
      destruct (setfield host a n v) as [a1|] eqn:S; simpl in H; [|discriminate].
      destruct (getfield_setfield_same _ _ _ _ _ W S) as (off & t & bs & L & E & G).
      exists off, t, bs. split; [assumption|]. split; [assumption|].
      rewrite <- G.
      eapply assign_fields_skipped; eauto.
      eapply setfield_well_formed; eauto.
    + destruct (dict_get d k) as [w|].
      * destruct (setfield host a k w) as [a1|] eqn:S; simpl in H; [|discriminate].
        destruct (IH a1 a') as (off & t & bs & L & E & G); try assumption.
        -- eapply setfield_well_formed; eauto.
        -- exists off, t, bs. split; [|split; assumption].
           now rewrite <- (setfield_fields _ _ _ _ _ S).
      * now apply IH.
Qed.

(** ** Lemmas: the header record *)

(** The scalar type strings leave five values to [endianess]. *)
Lemma endianess_cases (e : string) (t : scalar) :
  parse_code (e ++ "u2") = Some t ->
  e = "<" \/ e = ">" \/ e = "=" \/ e = "|" \/ e = "".
Proof.
  destruct e as [|c e1]; [now auto 6|].
  destruct e1 as [|c1 e2].
  - destruct c as [[] [] [] [] [] [] [] []]; simpl; intro H;
      try discriminate; auto.
  - intro H. exfalso. revert H.
    destruct e2 as [|c2 e3]; [|destruct e3 as [|c3 e4]];
      destruct c as [[] [] [] [] [] [] [] []]; simpl; try discriminate.
Qed.


Lemma np_dtype_header (e : string) (fields : list (string * ftype)) :
  np_dtype (get_header_dtype_list e) = Ok fields ->
  fields = header_record (order_of_endianess e) /\
  valid_endianess e.
Proof.
  intro H.
  assert (C : valid_endianess e).
  { unfold get_header_dtype_list in H. cbn [app np_dtype] in H.
    destruct (parse_code (e ++ "u2")) as [t|] eqn:P; [|discriminate].
    eapply endianess_cases; eauto. }
  split; [|exact C].
  destruct C as [ -> | [ -> | [ -> | [ -> | -> ] ] ] ]; vm_compute in H; inversion H; reflexivity.
Qed.

Lemma record_size_header (o : option byteorder) :
  record_size (header_record o) = 240%nat.
Proof. reflexivity. Qed.

Lemma header_names_NoDup (o : option byteorder) :
  NoDup (map fst (header_record o)).
Proof.
  assert (E : map fst (header_record o) = map fst (header_record None))
    by reflexivity.
  rewrite E.
  apply (NoDup_count_occ' string_dec).
  intros x Hx.
  vm_compute in Hx.
  repeat (destruct Hx as [ <- | Hx ]; [vm_compute; reflexivity|]).
  destruct Hx.
Qed.

(** ** Lemmas: the header derived from a signal *)


(** The default header is never built: the reading of the clock is a naive
    [datetime], and the epoch it is subtracted from is an aware one. *)
Lemma get_default_header_raises host clock e :
  get_default_header host clock e = Raise naive_minus_aware.
Proof. reflexivity. Qed.

Lemma get_header_from_signal_fresh host clock s e :
  original_metadata s = None ->
  get_header_from_signal host clock s e = Raise naive_minus_aware.
Proof.
  intro H. unfold get_header_from_signal. rewrite H.
  rewrite get_default_header_raises. reflexivity.
Qed.


(** What a successful call went through. *)
Lemma get_header_from_signal_ok host clock s e header note :
  get_header_from_signal host clock s e = Ok (header, note) ->
  exists blockfile_header header0 d1,
    original_metadata s = Some blockfile_header /\
    dict_get blockfile_header "Note" = Some note /\
    dict2sarray_dtype host blockfile_header (get_header_dtype_list e) = Ok header0 /\
    fst (signal_shape s) = snd (signal_shape s) /\
    PrimFloat.eqb (fst (signal_scales s)) 0 = false /\
    field_int host header0 "Data_offset_1" = Ok d1 /\
    dict2sarray host (derived_fields s d1) header0 = Ok header.
Proof.
  unfold get_header_from_signal, derived_fields.
  destruct (original_metadata s) as [bh|] eqn:OM.
  - destruct (dict2sarray_dtype host bh (get_header_dtype_list e)) as [h0|] eqn:D;
      [|discriminate].
    cbn [bind].
    destruct (dict_get bh "Note") as [n|] eqn:N; [|discriminate].
    cbn [bind].
    destruct (navigation_shape s) as [NX NY].
    destruct (fst (signal_shape s) =? snd (signal_shape s)) eqn:Sq; [|discriminate].
    cbn [negb].
    destruct (PrimFloat.eqb (fst (signal_scales s)) 0) eqn:Z0; [discriminate|].
    cbn [bind].
    destruct (field_int host h0 "Data_offset_1") as [d1|] eqn:F; [|discriminate].
    cbn [bind].
    destruct (dict2sarray host _ h0) as [h|] eqn:U; [|discriminate].
    cbn [bind]. intro H. inversion H; subst.
    exists bh, h0, d1. apply Z.eqb_eq in Sq. repeat split; auto.
  - rewrite get_default_header_raises. discriminate.
Qed.

Lemma dict2sarray_dtype_ok host d e header0 :
  dict2sarray_dtype host d (get_header_dtype_list e) = Ok header0 ->
  sa_fields header0 = header_record (order_of_endianess e) /\
  well_formed header0 /\
  valid_endianess e.
Proof.
  unfold dict2sarray_dtype.
  destruct (np_dtype (get_header_dtype_list e)) as [fields|] eqn:P; [|discriminate].
  cbn [bind]. intro H.
  apply np_dtype_header in P. destruct P as [-> C].
  unfold dict2sarray in H.
  split; [|split; [|exact C]].
  - now apply assign_fields_fields in H.
  - eapply assign_fields_well_formed; [|exact H]. reflexivity.
Qed.

(** The header of a successful call: its record type and size, and the
    order the call was made with. *)
Lemma header_of_signal_shape host clock s e header note :
  get_header_from_signal host clock s e = Ok (header, note) ->
  sa_fields header = header_record (order_of_endianess e) /\
  well_formed header /\
  length (tofile header) = 240%nat /\
  valid_endianess e.
Proof.
  intro H. apply get_header_from_signal_ok in H.
  destruct H as (bh & h0 & d1 & _ & _ & D & _ & _ & _ & U).
  apply dict2sarray_dtype_ok in D. destruct D as (F & W & C).
  unfold dict2sarray in U.
  pose proof (assign_fields_fields _ _ _ _ _ U) as F'.
  pose proof (assign_fields_well_formed _ _ _ _ _ W U) as W'.
  rewrite F in F'.
  split; [assumption|]. split; [assumption|]. split; [|assumption].
  unfold tofile. unfold well_formed in W'. rewrite W', F'. reflexivity.
Qed.

(** An integer field assigned from a dictionary holds the value wrapped to
    the width of the field. *)
Lemma field_int_assigned host d a a' n v off o k :
  well_formed a -> NoDup (map fst (sa_fields a)) ->
  dict2sarray host d a = Ok a' ->
  dict_get d n = Some (VInt v) ->
  locate (sa_fields a) n 0
  = Some (off, FScalar {| sc_order := o; sc_kind := UInt; sc_size := k |}) ->
  field_int host a' n = Ok (wrap k v).
Proof.
  intros W ND U G L. unfold dict2sarray in U.
  assert (Hin : In n (map fst (sa_fields a))).
  { clear - L. revert L. generalize 0%nat.
    induction (sa_fields a) as [|[k' t'] r IH]; intros off0 L; simpl in L.
    - discriminate.
    - destruct (String.eqb k' n) eqn:E.
      + apply String.eqb_eq in E. now left.
      + right. eapply IH; eauto. }
  destruct (assign_fields_assigned _ _ _ _ _ _ _ W ND Hin G U)
    as (off' & t & bs & L' & E & Gf).
  rewrite L in L'. inversion L'; subst.
  unfold field_int. rewrite Gf.
  cbn [encode sc_kind sc_size] in E.
  destruct (to_long k v) as [v'|] eqn:T; cbn [bind] in E; [|discriminate].
  apply to_long_ok in T. subst v'.
  inversion E; subst.
  simpl. now rewrite uint_value_uint_bytes.
Qed.

Lemma field_int_untouched host d a a' n :
  well_formed a -> dict2sarray host d a = Ok a' -> dict_get d n = None ->
  field_int host a' n = field_int host a n.
Proof.
  intros W U G. unfold field_int, dict2sarray in *.
  now rewrite (assign_fields_untouched _ _ _ _ _ _ W G U).
Qed.

Lemma field_int_range host a n off o k v :
  locate (sa_fields a) n 0
  = Some (off, FScalar {| sc_order := o; sc_kind := UInt; sc_size := k |}) ->
  field_int host a n = Ok v -> 0 <= v < 2 ^ (8 * Z.of_nat k).
Proof.
  intro L.
  assert (E : 2 ^ (8 * Z.of_nat k) = 256 ^ Z.of_nat k)
    by (rewrite Z.pow_mul_r by lia; reflexivity).
  rewrite E. clear E.
  unfold field_int, getfield. rewrite L.
  cbn [decode sc_kind itemsize sc_size].
  intro H. inversion H; subst.
  match goal with |- _ <= uint_value ?ord ?bs < _ =>
    pose proof (uint_value_range ord bs) as R;
    assert (Hl : (length bs <= k)%nat) by (rewrite length_firstn; lia)
  end.
  split; [lia|].
  eapply Z.lt_le_trans; [apply R|].
  apply Z.pow_le_mono_r; lia.
Qed.

Lemma wrap_add_mod16 (x : Z) :
  wrap 4 (wrap 4 x + wrap 4 x mod 16) = wrap 4 (x + x mod 16).
Proof.
  unfold wrap. change (2 ^ (8 * Z.of_nat 4)) with 4294967296.
  assert (E : (x mod 4294967296) mod 16 = x mod 16).
  { apply Z.mod_mod_divide. exists 268435456. reflexivity. }
  rewrite E. now rewrite Z.add_mod_idemp_l by lia.
Qed.

(** The offset of the frames in a derived header: the sum of
    [NX*NY + Data_offset_1] and its remainder modulo 16, wrapped to the 32
    bits of the field. *)
Lemma derived_data_offset_2 host clock s e header note NX NY d1 :
  get_header_from_signal host clock s e = Ok (header, note) ->
  navigation_shape s = (NX, NY) ->
  field_int host header "Data_offset_1" = Ok d1 ->
  field_int host header "Data_offset_2"
  = Ok (wrap 4 (NX * NY + d1 + (NX * NY + d1) mod 16)) /\
  0 <= d1 < 2 ^ 32.
Proof.
  intros H Hn Hd1.
  apply get_header_from_signal_ok in H.
  destruct H as (bh & h0 & d1' & _ & _ & D & _ & _ & F0 & U).
  apply dict2sarray_dtype_ok in D. destruct D as (Fh & W & _).
  assert (ND : NoDup (map fst (sa_fields h0)))
    by (rewrite Fh; apply header_names_NoDup).
  assert (Ed : d1' = d1).
  { rewrite (field_int_untouched _ _ _ _ "Data_offset_1" W U) in Hd1.
    - congruence.
    - unfold derived_fields. now destruct (navigation_shape s). }
  subst d1'. split.
  - rewrite <- wrap_add_mod16,
      <- (wrap_small 4 (wrap 4 (wrap 4 _ + _))) by apply wrap_range.
    eapply field_int_assigned with (d := derived_fields s d1); eauto.
    + unfold derived_fields. rewrite Hn. reflexivity.
    + rewrite Fh. reflexivity.
  - change (2 ^ 32) with (2 ^ (8 * Z.of_nat 4)).
    eapply (field_int_range host header "Data_offset_1"); [|exact Hd1].
    unfold dict2sarray in U. rewrite (assign_fields_fields _ _ _ _ _ U), Fh.
    reflexivity.
Qed.

(** C2. Offset derivation: the header [get_header_from_signal] returns
    carries [Data_offset_2 = NX*NY + Data_offset_1 + ((NX*NY +
    Data_offset_1) mod 16)], the sum of the offset and its remainder, for
    the scan grid [(NX, NY)] of the signal, whenever that sum fits the
    unsigned 32-bit field (it is stored modulo 2^32); for the sample cube
    the sum is 4108, which is not a multiple of 16 and is not the next
    multiple of 16 after 4102. *)
Theorem data_offset_2_add_remainder :
  (forall host clock s e header note NX NY d1,
      get_header_from_signal host clock s e = Ok (header, note) ->
      navigation_shape s = (NX, NY) ->
      field_int host header "Data_offset_1" = Ok d1 ->
      field_int host header "Data_offset_2"
      = Ok (wrap 4 (NX * NY + d1 + (NX * NY + d1) mod 16)) /\
      (0 <= NX * NY ->
       NX * NY + d1 + (NX * NY + d1) mod 16 < 2 ^ 32 ->
       field_int host header "Data_offset_2"
       = Ok (NX * NY + d1 + (NX * NY + d1) mod 16))) /\
  (let header := sample_header LittleEndian
                   (Some (sample_blockfile_header 4096 "")) "<" in
   field_int LittleEndian header "Data_offset_1" = Ok 4096 /\
   field_int LittleEndian header "Data_offset_2" = Ok 4108 /\
   4108 mod 16 = 12 /\
   16 * ((2 * 3 + 4096 + 15) / 16) = 4112).
Proof.
  split.
  - intros host clock s e header note NX NY d1 H Hn Hd1.
    destruct (derived_data_offset_2 _ _ _ _ _ _ _ _ _ H Hn Hd1) as [V R].
    split; [exact V|].
    intros Hp Hlt. rewrite V. f_equal. apply wrap_small.
    pose proof (Z.mod_pos_bound (NX * NY + d1) 16).
    change (2 ^ (8 * Z.of_nat 4)) with (2 ^ 32). lia.
  - vm_compute. repeat split; reflexivity.
Qed.

Lemma data_offset_2_add_remainder_witness :
  field_int LittleEndian
    (sample_header LittleEndian (Some (sample_blockfile_header 4096 "")) "<")
    "Data_offset_2"
  = Ok (2 * 3 + 4096 + (2 * 3 + 4096) mod 16).
Proof.
  refine (proj2 (proj1 data_offset_2_add_remainder LittleEndian 0
                   (sample_signal (Some (sample_blockfile_header 4096 ""))) "<"
                   _ (VStr []) 2 3 4096 _ _ _) _ _).
  - vm_compute. reflexivity.
  - reflexivity.
  - vm_compute. reflexivity.
  - lia.
  - vm_compute. reflexivity.
Defined.

(** ** The writer before it opens the file *)

(** Whatever [get_header_from_signal] raises leaves the destination as it
    was: the file is opened only once the header is there. *)
Lemma file_writer_raises_before_open host clock dest s e x :
  get_header_from_signal host clock s e = Raise x ->
  file_writer host clock dest s e = (Raise x, dest).
Proof. intro H. unfold file_writer. now rewrite H. Qed.

(** A signal that brings a header along and whose frames are not square is
    turned down with [NonSquareFrame], and nothing is written. *)
Lemma non_square_with_header_rejected host clock dest s e blockfile_header header note :
  original_metadata s = Some blockfile_header ->
  dict2sarray_dtype host blockfile_header (get_header_dtype_list e) = Ok header ->
  dict_get blockfile_header "Note" = Some note ->
  fst (signal_shape s) <> snd (signal_shape s) ->
  file_writer host clock dest s e = (Raise NonSquareFrame, dest).
Proof.
  intros OM D N Sq. apply file_writer_raises_before_open.
  unfold get_header_from_signal. rewrite OM, D. cbn [bind]. rewrite N. cbn [bind].
  destruct (navigation_shape s) as [NX NY].
  apply Z.eqb_neq in Sq. rewrite Sq. reflexivity.
Qed.

(** Frames that are not square are never written, whatever else the
    signal holds. *)
Lemma non_square_never_written host clock dest s e :
  fst (signal_shape s) <> snd (signal_shape s) ->
  exists x, file_writer host clock dest s e = (Raise x, dest).
Proof.
  intro Sq.
  destruct (get_header_from_signal host clock s e) as [[h n]|x] eqn:H.
  - apply get_header_from_signal_ok in H.
    destruct H as (_ & _ & _ & _ & _ & _ & Sq' & _). contradiction.
  - exists x. now apply file_writer_raises_before_open.
Qed.

(** C1. Pixel round-trip: a cube of shape [(NY=3, NX=2, 4, 4)] handed to
    [file_writer] as a signal of its own (no ['blockfile_header'] in its
    [original_metadata]) is not written at all: the default header cannot
    be built, [file_writer] raises [TypeError] and the destination stays
    as it was, so there is nothing to read back. *)
Theorem fresh_cube_is_not_written host clock dest cube nav_scales sig_scales e :
  file_writer host clock dest
    {| data := cube;
       navigation_shape := (2, 3);
       signal_shape := (4, 4);
       navigation_scales := nav_scales;
       signal_scales := sig_scales;
       original_metadata := None |} e
  = (Raise naive_minus_aware, dest).
Proof.
  apply file_writer_raises_before_open.
  now apply get_header_from_signal_fresh.
Qed.

(** C3. Square-frame rejection: a cube of shape [(3, 2, 4, 5)], whose
    frames are not square, handed to [file_writer] as a signal of its own
    leaves the destination as it was, but the exception raised is the
    [TypeError] of the default header, which is built before the shape is
    looked at, and not [NonSquareFrame]. *)
Theorem fresh_non_square_cube_raises_type_error host clock dest cube nav_scales sig_scales e :
  file_writer host clock dest
    {| data := cube;
       navigation_shape := (2, 3);
       signal_shape := (5, 4);
       navigation_scales := nav_scales;
       signal_scales := sig_scales;
       original_metadata := None |} e
  = (Raise naive_minus_aware, dest)
  /\ naive_minus_aware <> NonSquareFrame.
Proof.
  split.
  - apply file_writer_raises_before_open.
    now apply get_header_from_signal_fresh.
  - discriminate.
Qed.

(** ** The fields of the derived header *)

(** C9. Per-axis scan scales: the header does not depend on the scale of
    the second navigation axis at all; both [SX] and [SY] are taken from
    [navigation_axes[0]].  For the sample cube, with scan steps 1.5 (x) and
    2.5 (y), the header carries [SX = 1.5] and [SY = 1.5]. *)
Theorem scan_scale_y_is_ignored :
  (forall host clock e cube nav_shape sig_shape x y y' sig_scales om,
      get_header_from_signal host clock
        {| data := cube; navigation_shape := nav_shape; signal_shape := sig_shape;
           navigation_scales := (x, y); signal_scales := sig_scales;
           original_metadata := om |} e
      = get_header_from_signal host clock
          {| data := cube; navigation_shape := nav_shape; signal_shape := sig_shape;
             navigation_scales := (x, y'); signal_scales := sig_scales;
             original_metadata := om |} e) /\
  (let s := sample_signal (Some (sample_blockfile_header 4096 "")) in
   let header := sample_header LittleEndian (Some (sample_blockfile_header 4096 "")) "<" in
   navigation_scales s = (1.5, 2.5)%float /\
   getfield LittleEndian header "SX" = Some (VFloat 1.5) /\
   getfield LittleEndian header "SY" = Some (VFloat 1.5)).
Proof.
  split.
  - reflexivity.
  - vm_compute. repeat split; reflexivity.
Qed.

(** C5. Endianness coverage: whatever [endianess] is asked for, the
    twenty-two fields [Centering_N0..7] and [Distortion_N00..13] have the
    type string ["f8"], without the byte-order character, which NumPy
    reads as the byte order of the host.  On a little-endian host with
    [endianess = ">"] the header stores [SX = 1.5] big-endian and
    [Centering_N0 = 1.0] little-endian. *)
Theorem calibration_fields_ignore_endianess :
  (forall e,
      map fst (skipn 16 (get_header_dtype_list e))
      = [ "Centering_N0"; "Centering_N1"; "Centering_N2"; "Centering_N3";
          "Centering_N4"; "Centering_N5"; "Centering_N6"; "Centering_N7";
          "Distortion_N00"; "Distortion_N01"; "Distortion_N02"; "Distortion_N03";
          "Distortion_N04"; "Distortion_N05"; "Distortion_N06"; "Distortion_N07";
          "Distortion_N08"; "Distortion_N09"; "Distortion_N10"; "Distortion_N11";
          "Distortion_N12"; "Distortion_N13" ] /\
      Forall (fun f => snd f = Code "f8") (skipn 16 (get_header_dtype_list e))) /\
  (forall host,
      option_map (order_on host) (parse_code "f8") = Some host /\
      option_map (order_on host) (parse_code ">f8") = Some BigEndian) /\
  (let om := Some (sample_blockfile_header 4096 "" ++ [("Centering_N0", VFloat 1)]) in
   let header := sample_header LittleEndian om ">" in
   locate (sa_fields header) "SX" 0
   = Some (30%nat, FScalar {| sc_order := Some BigEndian; sc_kind := Float; sc_size := 8 |}) /\
   locate (sa_fields header) "Centering_N0" 0
   = Some (64%nat, FScalar {| sc_order := None; sc_kind := Float; sc_size := 8 |}) /\
   firstn 8 (skipn 30 (tofile header))
   = [x3f; xf8; x00; x00; x00; x00; x00; x00] /\
   firstn 8 (skipn 64 (tofile header))
   = [x00; x00; x00; x00; x00; x00; xf0; x3f]).
Proof.
  split; [|split].
  - intro e. split; [reflexivity|].
    cbn. repeat constructor.
  - intro host. split; reflexivity.
  - vm_compute. repeat split; reflexivity.
Qed.

(** ** The loop over the frames *)

Lemma dp_head_id host o k :
  0 <= k < 2 ^ 32 -> field_int host (dp_head_at host o k) "ID" = Ok k.
Proof.
  intro H. unfold field_int, getfield, dp_head_at, frame_head.
  cbn [sa_fields sa_buf locate String.eqb Ascii.eqb Bool.eqb itemsize sc_size Nat.add].
  cbn [decode sc_kind order_on sc_order].
  destruct o as [[]|]; [| |destruct host]; cbn [uint_bytes le_bytes rev app skipn firstn];
    match goal with |- Ok (uint_value ?ord ?bs) = _ =>
      change bs with (uint_bytes ord 4 k) end;
    rewrite uint_value_uint_bytes, wrap_small; auto.
Qed.

Lemma dp_head_next host o k v :
  0 <= v < 2 ^ 32 ->
  setfield host (dp_head_at host o k) "ID" (VInt v) = Ok (dp_head_at host o v).
Proof.
  intro Hv. unfold setfield, dp_head_at, frame_head.
  cbn [sa_fields sa_buf locate String.eqb Ascii.eqb Bool.eqb itemsize sc_size Nat.add].
  cbn [encode sc_kind order_on sc_order sc_size].
  rewrite to_long_small by (assert (2 ^ 32 < 2 ^ 63) by reflexivity; lia).
  cbn [bind].
  destruct o as [[]|]; [| |destruct host]; reflexivity.
Qed.

(** The loop started with [ID = k]: with no more frames than the limit
    allows every frame is written behind its head; otherwise the loop stops
    with [FrameCountExceeded] after the first frame beyond the limit. *)
Lemma write_frames_from host o limit : forall imgs k f,
  0 <= k <= limit -> limit < 2 ^ 32 - 1 ->
  let ord := match o with Some o' => o' | None => host end in
  write_frames host limit imgs (dp_head_at host o k) f
  = if k + Z.of_nat (length imgs) <=? limit
    then (Ok tt, f ++ framed ord k imgs)
    else (Raise FrameCountExceeded,
          f ++ framed ord k (firstn (Z.to_nat (limit - k + 1)) imgs)).
Proof.
  induction imgs as [|img rest IH]; intros k f Hk Hl ord.
  - cbn [write_frames length framed io_ret]. rewrite Z.add_0_r.
    destruct (k <=? limit) eqn:E; [|apply Z.leb_gt in E; lia].
    now rewrite app_nil_r.
  - cbn [write_frames].
    unfold io_bind at 1. unfold io_write at 1.
    unfold io_bind at 1. unfold io_write at 1.
    unfold io_bind at 1. unfold io_lift at 1.
    rewrite dp_head_id by lia.
    unfold io_bind at 1. unfold io_lift at 1.
    rewrite wrap_small by (change (2 ^ (8 * Z.of_nat 4)) with (2 ^ 32); lia).
    rewrite dp_head_next by lia.
    unfold io_bind at 1. unfold io_lift at 1.
    rewrite dp_head_id by lia.
    cbn [length]. rewrite Nat2Z.inj_succ.
    destruct (k + 1 >? limit) eqn:G.
    + apply Z.gtb_lt in G. assert (k = limit) by lia. subst k.
      unfold io_lift.
      destruct (limit + Z.succ (Z.of_nat (length rest)) <=? limit) eqn:E;
        [apply Z.leb_le in E; lia|].
      replace (limit - limit + 1) with 1 by lia.
      change (Z.to_nat 1) with 1%nat.
      cbn [firstn framed]. unfold tofile, dp_head_at. cbn [sa_buf]. fold ord.
      now rewrite <- !app_assoc, ?app_nil_r.
    + assert (k + 1 <= limit) by (rewrite Z.gtb_ltb in G; apply Z.ltb_ge in G; lia).
      rewrite IH by lia. fold ord.
      replace (k + 1 + Z.of_nat (length rest)) with (k + Z.succ (Z.of_nat (length rest))) by lia.
      destruct (k + Z.succ (Z.of_nat (length rest)) <=? limit).
      * cbn [framed]. unfold tofile, dp_head_at. cbn [sa_buf]. fold ord.
        now rewrite <- !app_assoc.
      * replace (Z.to_nat (limit - k + 1)) with (S (Z.to_nat (limit - (k + 1) + 1))) by lia.
        cbn [firstn framed]. unfold tofile, dp_head_at. cbn [sa_buf]. fold ord.
        now rewrite <- !app_assoc.
Qed.

(** C4, as the code has it. Frame markers on write: the loop starts from
    the record [dp_head] with [ID = 0]; the marker before the k-th frame
    (k counted from 1) is the magic 0x55AA followed by the 4-byte serial
    [k - 1], in the byte order asked for (little-endian for ["<"]: AA 55
    and the serial, least significant byte first).  When there are more
    frames than [limit], the loop raises [FrameCountExceeded] once frame
    number [limit + 1] has been written. *)
Theorem frame_serials_start_at_zero host o limit imgs f :
  0 <= limit < 2 ^ 32 - 1 ->
  let ord := match o with Some o' => o' | None => host end in
  (Z.of_nat (length imgs) <= limit ->
   write_frames host limit imgs (dp_head_at host o 0) f
   = (Ok tt, f ++ framed ord 0 imgs)) /\
  (limit < Z.of_nat (length imgs) ->
   write_frames host limit imgs (dp_head_at host o 0) f
   = (Raise FrameCountExceeded,
      f ++ framed ord 0 (firstn (Z.to_nat limit + 1) imgs))) /\
  (forall (k : nat) img rest,
     framed ord (Z.of_nat k) (img :: rest)
     = uint_bytes ord 2 21930 ++ uint_bytes ord 4 (Z.of_nat k)
       ++ astype_u1 img ++ framed ord (Z.of_nat (S k)) rest) /\
  frame_head LittleEndian 0 = [xaa; x55; x00; x00; x00; x00].
Proof.
  intros Hl ord.
  pose proof (write_frames_from host o limit imgs 0 f) as W.
  cbv zeta in W. fold ord in W.
  split; [|split; [|split]].
  - intro H. rewrite W by lia.
    destruct (0 + Z.of_nat (length imgs) <=? limit) eqn:E;
      [reflexivity|apply Z.leb_gt in E; lia].
  - intro H. rewrite W by lia.
    destruct (0 + Z.of_nat (length imgs) <=? limit) eqn:E;
      [apply Z.leb_le in E; lia|].
    replace (Z.to_nat (limit - 0 + 1)) with (Z.to_nat limit + 1)%nat by lia.
    reflexivity.
  - intros k img rest. cbn [framed]. unfold frame_head.
    rewrite <- app_assoc. do 3 f_equal.
    replace (Z.of_nat k + 1) with (Z.of_nat (S k)) by lia. reflexivity.
  - reflexivity.
Qed.

Lemma frame_serials_start_at_zero_witness :
  write_frames LittleEndian 6 [[1; 2]; [3; 4]]
    (dp_head_at LittleEndian (Some LittleEndian) 0) []
  = (Ok tt, [] ++ framed LittleEndian 0 [[1; 2]; [3; 4]]).
Proof.
  refine (proj1 (frame_serials_start_at_zero LittleEndian (Some LittleEndian) 6
                   [[1; 2]; [3; 4]] [] _) _).
  - lia.
  - simpl. lia.
Defined.

(** ** The note *)

Lemma slice_to_truncates {A} (l : list A) (room : Z) :
  0 <= room < Z.of_nat (length l) ->
  slice_to l (room - Z.of_nat (length l)) = firstn (Z.to_nat room) l.
Proof.
  intro H. unfold slice_to.
  destruct (room - Z.of_nat (length l) <? 0) eqn:E; [|apply Z.ltb_ge in E; lia].
  f_equal. lia.
Qed.

(** [write_note] on a file that has not reached [Data_offset_1] yet: the
    note, cut to the room left, and zeros up to [Data_offset_1]. *)
Lemma write_note_run (d1 : Z) (n f : list byte) :
  Z.of_nat (length f) <= d1 ->
  let room := Z.to_nat (d1 - Z.of_nat (length f)) in
  write_note d1 (VStr n) f
  = (Ok tt, f ++ firstn room n ++ repeat x00 (room - length (firstn room n))).
Proof.
  intros H room. unfold write_note.
  unfold io_bind at 1. unfold io_lift at 1.
  unfold io_bind at 1. unfold io_tell at 1.
  set (stored := if Z.of_nat (length n) >? d1 - Z.of_nat (length f)
                 then slice_to n (d1 - Z.of_nat (length f) - Z.of_nat (length n))
                 else n).
  assert (S : stored = firstn room n).
  { unfold stored, room.
    destruct (Z.of_nat (length n) >? d1 - Z.of_nat (length f)) eqn:G.
    - apply Z.gtb_lt in G. apply slice_to_truncates. lia.
    - rewrite Z.gtb_ltb in G. apply Z.ltb_ge in G.
      symmetry. apply firstn_all2. lia. }
  rewrite S.
  unfold io_bind at 1. unfold io_write at 1.
  unfold io_bind at 1. unfold io_tell at 1.
  unfold io_bind at 1. unfold io_lift at 1.
  assert (L : (length (firstn room n) <= room)%nat)
    by (rewrite length_firstn; lia).
  unfold zeros. rewrite length_app.
  destruct (d1 - Z.of_nat (length f + length (firstn room n)) <? 0) eqn:E;
    [apply Z.ltb_lt in E; lia|].
  unfold io_write. rewrite <- app_assoc.
  do 4 f_equal. lia.
Qed.


Lemma appends_ret {A} (a : A) : appends (io_ret a).
Proof. intro f. exists []. simpl. now rewrite app_nil_r. Qed.

Lemma appends_lift {A} (r : result A) : appends (io_lift r).
Proof. intro f. exists []. simpl. now rewrite app_nil_r. Qed.

Lemma appends_tell : appends io_tell.
Proof. intro f. exists []. simpl. now rewrite app_nil_r. Qed.

Lemma appends_write (bs : list byte) : appends (io_write bs).
Proof. intro f. now exists bs. Qed.

Lemma appends_bind {A B} (m : io A) (k : A -> io B) :
  appends m -> (forall a, appends (k a)) -> appends (io_bind m k).
Proof.
  intros Hm Hk f. unfold io_bind.
  destruct (Hm f) as [r1 E1].
  destruct (m f) as [[a|x] f1]; simpl in E1; subst f1.
  - destruct (Hk a (f ++ r1)) as [r2 E2]. exists (r1 ++ r2).
    now rewrite E2, app_assoc.
  - now exists r1.
Qed.

Lemma appends_if {A} (b : bool) (m1 m2 : io A) :
  appends m1 -> appends m2 -> appends (if b then m1 else m2).
Proof. now destruct b. Qed.

Lemma appends_write_frames host limit imgs :
  forall dp_head, appends (write_frames host limit imgs dp_head).
Proof.
  induction imgs as [|img rest IH]; intro dp_head; cbn [write_frames].
  - apply appends_ret.
  - repeat (first [ apply appends_bind; [|intro] | apply appends_if
                  | apply appends_write | apply appends_lift | apply IH ]).
Qed.

Lemma appends_write_note d1 note : appends (write_note d1 note).
Proof.
  unfold write_note.
  repeat (first [ apply appends_bind; [|intro] | apply appends_write
                | apply appends_lift | apply appends_tell ]).
Qed.


Lemma appends_write_stack host s e header : appends (write_stack host s e header).
Proof.
  unfold write_stack.
  repeat (first [ apply appends_bind; [|intro] | apply appends_write
                | apply appends_lift | apply appends_tell
                | apply appends_write_frames ]).
Qed.

Lemma write_blockfile_split host s e header note d1 f :
  field_int host header "Data_offset_1" = Ok d1 ->
  write_blockfile host s e header note f
  = match write_note d1 note (f ++ tofile header) with
    | (Ok _, f') => write_stack host s e header f'
    | (Raise x, f') => (Raise x, f')
    end.
Proof.
  intro H. unfold write_blockfile.
  unfold io_bind at 1. unfold io_write at 1.
  unfold io_bind at 1. unfold io_lift at 1. rewrite H.
  unfold io_bind at 1.
  destruct (write_note d1 note (f ++ tofile header)) as [[[]|x] f']; reflexivity.
Qed.

(** ** The reader *)

(** C6, as the code has it. Axis descriptors on read: a successful read
    yields exactly four descriptors, in the order of the dimensions of the
    data: [y] (scan row), [x] (scan column), [dy], [dx], with sizes, scales
    and units [(NY, SY, "nm")], [(NX, SX, "nm")], [(DP_SZ, 100/SDP, "cm")]
    twice, the reciprocal scale being [Undefined] when [SDP] is 0, and
    every offset 0.0.  With [SX = SY = 1.5] and [SDP = 100] the scales in
    the order of the descriptors are [1.5, 1.5, 1.0, 1.0]. *)
Theorem axes_follow_the_data_dimensions host file e r :
  file_reader host file e = Ok r ->
  exists NX NY DP_SZ sdp SX SY,
    dict_int (r_header r) "NX" = Ok NX /\
    dict_int (r_header r) "NY" = Ok NY /\
    dict_int (r_header r) "DP_SZ" = Ok DP_SZ /\
    dict_int (r_header r) "SDP" = Ok sdp /\
    dict_float (r_header r) "SX" = Ok SX /\
    dict_float (r_header r) "SY" = Ok SY /\
    let reciprocal := if sdp =? 0 then Undefined
                      else Scale (100 / float_of_Z sdp)%float in
    r_axes r
    = [ {| size := NY; index_in_array := 0; name := "y"; scale := Scale SY;
           offset := 0%float; units := "nm" |};
        {| size := NX; index_in_array := 1; name := "x"; scale := Scale SX;
           offset := 0%float; units := "nm" |};
        {| size := DP_SZ; index_in_array := 2; name := "dy"; scale := reciprocal;
           offset := 0%float; units := "cm" |};
        {| size := DP_SZ; index_in_array := 3; name := "dx"; scale := reciprocal;
           offset := 0%float; units := "cm" |} ] /\
    (SX = 1.5%float -> SY = 1.5%float -> sdp = 100 ->
     map scale (r_axes r)
     = [Scale 1.5; Scale 1.5; Scale 1; Scale 1]).
Proof.
  unfold file_reader. intro H.
  bind_ok H. bind_ok H. bind_ok H. bind_ok H.
  bind_ok H. bind_ok H. bind_ok H. bind_ok H. bind_ok H.
  match type of H with (if ?c then _ else _) = _ => destruct c; [discriminate|] end.
  match type of H with (if ?c then _ else _) = _ => destruct c; [discriminate|] end.
  bind_ok H. bind_ok H.
  cbn in H. inversion H; subst; clear H. cbn [r_header r_axes].
  do 6 eexists.
  repeat (split; [eassumption|]).
  split; [reflexivity|].
  intros -> -> ->. reflexivity.
Qed.

Lemma short_file_is_rejected host f e :
  (length f < 240)%nat -> exists x, file_reader host (Some f) e = Raise x.
Proof.
  intro H. unfold file_reader. cbn [Py.bind].
  destruct (np_dtype (get_header_dtype_list e)) as [fields|x] eqn:P.
  - apply np_dtype_header in P. destruct P as [-> _].
    cbn [Py.bind]. unfold fromfile. rewrite record_size_header.
    apply Nat.ltb_lt in H. rewrite H. cbn [Py.bind]. eauto.
  - cbn [Py.bind]. eauto.
Qed.

Lemma is_ok_if {A} (c : bool) (x y : result A) :
  is_ok (if c then x else y) = if c then is_ok x else is_ok y.
Proof. now destruct c. Qed.

Lemma id_and_magic_are_not_read host f e a0 a1 a2 a3 a4 a5 a6 a7 b0 b1 b2 b3 b4 b5 b6 b7 :
  is_ok (file_reader host (Some ([a0; a1; a2; a3; a4; a5; a6; a7] ++ f)) e)
  = is_ok (file_reader host (Some ([b0; b1; b2; b3; b4; b5; b6; b7] ++ f)) e).
Proof.
  unfold file_reader. cbn [Py.bind].
  destruct (np_dtype (get_header_dtype_list e)) as [fields|x] eqn:P;
    [|reflexivity].
  apply np_dtype_header in P. destruct P as [-> _].
  cbn [Py.bind]. unfold fromfile. rewrite record_size_header.
  cbn [app length].
  change (S (S (S (S (S (S (S (S (length f)))))))) <? 240)%nat
    with (length f <? 232)%nat.
  destruct (length f <? 232)%nat; [reflexivity|].
  cbn [Py.bind].
  change (firstn 240 (a0 :: a1 :: a2 :: a3 :: a4 :: a5 :: a6 :: a7 :: f))
    with (a0 :: a1 :: a2 :: a3 :: a4 :: a5 :: a6 :: a7 :: firstn 232 f).
  change (firstn 240 (b0 :: b1 :: b2 :: b3 :: b4 :: b5 :: b6 :: b7 :: f))
    with (b0 :: b1 :: b2 :: b3 :: b4 :: b5 :: b6 :: b7 :: firstn 232 f).
  generalize (firstn 232 f). intro hdr.
  cbn.
  repeat match goal with
         | |- is_ok (if ?c then _ else _) = is_ok (if ?c then _ else _) =>
             destruct c; [reflexivity|]
         end.
  vm_compute. reflexivity.
Qed.

(** C7, as the code has it. Malformed-header rejection: the reader fails
    on every source shorter than the header record (240 bytes), and it
    never looks at [ID] or [MAGIC]: whether a read succeeds does not depend
    on the first eight bytes of the source. *)
Theorem reader_checks_the_size_only :
  (forall host f e,
      (length f < 240)%nat -> exists x, file_reader host (Some f) e = Raise x) /\
  (forall host f e id_magic id_magic',
      length id_magic = 8%nat -> length id_magic' = 8%nat ->
      is_ok (file_reader host (Some (id_magic ++ f)) e)
      = is_ok (file_reader host (Some (id_magic' ++ f)) e)).
Proof.
  split.
  - intros host f e. apply short_file_is_rejected.
  - intros host f e l l' H H'.
    destruct l as [|a0 [|a1 [|a2 [|a3 [|a4 [|a5 [|a6 [|a7 [|]]]]]]]]];
      try discriminate H.
    destruct l' as [|b0 [|b1 [|b2 [|b3 [|b4 [|b5 [|b6 [|b7 [|]]]]]]]]];
      try discriminate H'.
    apply id_and_magic_are_not_read.
Qed.

Lemma reader_checks_the_size_only_witness :
  (exists x, file_reader LittleEndian (Some [x00; x01]) "<" = Raise x) /\
  is_ok (file_reader LittleEndian
           (Some (bytes_of_string "IMGBLO" ++ [x02; x01] ++ skipn 8 sample_blockfile)) "<")
  = is_ok (file_reader LittleEndian
             (Some (bytes_of_string "NOTBLO" ++ [x00; x00] ++ skipn 8 sample_blockfile)) "<").
Proof.
  split.
  - apply (proj1 reader_checks_the_size_only LittleEndian [x00; x01] "<").
    simpl. lia.
  - apply (proj2 reader_checks_the_size_only LittleEndian (skipn 8 sample_blockfile) "<"
             (bytes_of_string "IMGBLO" ++ [x02; x01])
             (bytes_of_string "NOTBLO" ++ [x00; x00])); reflexivity.
Defined.

(** A file that starts with ["NOTBLO"] and the magic 0, and is otherwise
    the sample blockfile, is read without complaint. *)
Lemma foreign_id_and_magic_are_accepted :
  let f := sample_file LittleEndian (Some foreign_blockfile_header) "<" in
  firstn 8 f = bytes_of_string "NOTBLO" ++ [x00; x00] /\
  (240 <= length f)%nat /\
  exists r,
    file_reader LittleEndian (Some f) "<" = Ok r /\
    dict_get (r_header r) "ID" = Some (VStr (bytes_of_string "NOTBLO")) /\
    dict_get (r_header r) "ID" <> Some (VStr (bytes_of_string "IMGBLO")) /\
    dict_int (r_header r) "MAGIC" = Ok 0 /\
    0 <> 258.
Proof.
  intro f. split; [vm_compute; reflexivity|].
  split; [apply Nat.leb_le; vm_compute; reflexivity|].
  eexists. split; [vm_compute; reflexivity|].
  cbn [r_header].
  split; [vm_compute; reflexivity|].
  split; [vm_compute; discriminate|].
  split; [vm_compute; reflexivity|lia].
Qed.

Lemma axes_follow_the_data_dimensions_witness :
  exists NX NY DP_SZ sdp SX SY,
    dict_int (r_header sample_reading) "NX" = Ok NX /\
    dict_int (r_header sample_reading) "NY" = Ok NY /\
    dict_int (r_header sample_reading) "DP_SZ" = Ok DP_SZ /\
    dict_int (r_header sample_reading) "SDP" = Ok sdp /\
    dict_float (r_header sample_reading) "SX" = Ok SX /\
    dict_float (r_header sample_reading) "SY" = Ok SY /\
    let reciprocal := if sdp =? 0 then Undefined
                      else Scale (100 / float_of_Z sdp)%float in
    r_axes sample_reading
    = [ {| size := NY; index_in_array := 0; name := "y"; scale := Scale SY;
           offset := 0%float; units := "nm" |};
        {| size := NX; index_in_array := 1; name := "x"; scale := Scale SX;
           offset := 0%float; units := "nm" |};
        {| size := DP_SZ; index_in_array := 2; name := "dy"; scale := reciprocal;
           offset := 0%float; units := "cm" |};
        {| size := DP_SZ; index_in_array := 3; name := "dx"; scale := reciprocal;
           offset := 0%float; units := "cm" |} ] /\
    (SX = 1.5%float -> SY = 1.5%float -> sdp = 100 ->
     map scale (r_axes sample_reading)
     = [Scale 1.5; Scale 1.5; Scale 1; Scale 1]).
Proof.
  apply (axes_follow_the_data_dimensions LittleEndian (Some sample_blockfile) "<").
  vm_compute. reflexivity.
Defined.

(** The sample blockfile holds [SX = SY = 1.5] and [SDP = 100]; its
    descriptors come out as y, x, dy, dx with the scales 1.5, 1.5, 1.0,
    1.0: neither the order x, dy, dx, y nor the scales 1.5, 1.0, 1.0, 1.5. *)
Lemma axes_are_not_in_the_order_x_dy_dx_y :
  file_reader LittleEndian (Some sample_blockfile) "<" = Ok sample_reading /\
  dict_float (r_header sample_reading) "SX" = Ok 1.5%float /\
  dict_float (r_header sample_reading) "SY" = Ok 1.5%float /\
  dict_int (r_header sample_reading) "SDP" = Ok 100 /\
  map name (r_axes sample_reading) = ["y"; "x"; "dy"; "dx"] /\
  map name (r_axes sample_reading) <> ["x"; "dy"; "dx"; "y"] /\
  map scale (r_axes sample_reading) = [Scale 1.5; Scale 1.5; Scale 1; Scale 1] /\
  map scale (r_axes sample_reading) <> [Scale 1.5; Scale 1; Scale 1; Scale 1.5].
Proof.
  split; [vm_compute; reflexivity|].
  split; [vm_compute; reflexivity|].
  split; [vm_compute; reflexivity|].
  split; [vm_compute; reflexivity|].
  split; [vm_compute; reflexivity|].
  split; [vm_compute; discriminate|].
  split; [vm_compute; reflexivity|].
  vm_compute. intro H.
  apply (f_equal (fun l => match l with
                           | _ :: Scale x :: _ => PrimFloat.ltb x 1.25
                           | _ => false
                           end)) in H.
  vm_compute in H. discriminate H.
Qed.

(** The file written for the sample cube: the first frame head, at
    [Data_offset_2 = 4108], carries the serial 0 and not 1. *)
Lemma first_frame_has_serial_zero :
  file_writer LittleEndian 0 None
    (sample_signal (Some (sample_blockfile_header 4096 ""))) "<"
  = (Ok tt, Some sample_blockfile) /\
  firstn 6 (skipn 4108 sample_blockfile) = frame_head LittleEndian 0 /\
  firstn 6 (skipn 4108 sample_blockfile) <> frame_head LittleEndian 1 /\
  firstn 6 (skipn (4108 + 22) sample_blockfile) = frame_head LittleEndian 1.
Proof.
  split; [vm_compute; reflexivity|].
  split; [vm_compute; reflexivity|].
  split; [vm_compute; discriminate|].
  vm_compute; reflexivity.
Qed.

(** ** The metadata conversions *)

(** 200000 V are 200.0 kV and 4500 hundredths of a degree are 45.0
    degrees; 150 tenths of a millimetre come out as the float next above
    0.015. *)
Example mapping_examples :
  mapping_beam_energy 200000 = 200%float /\
  mapping_scan_rotation 4500 = 45%float /\
  mapping_camera_length 150 = 0.015000000000000001%float /\
  PrimFloat.ltb 0.015 (mapping_camera_length 150) = true.
Proof. repeat split; reflexivity. Qed.

(** ** The serial date *)






(** ** Writing and reading back *)

Lemma dict_get_app (d d' : dict) (k : string) :
  dict_get (d ++ d') k
  = match dict_get d k with Some v => Some v | None => dict_get d' k end.
Proof.
  induction d as [|[k' v] r IH]; simpl; [reflexivity|].
  now destruct (String.eqb k' k).
Qed.

Lemma locate_none fields : forall n off,
  locate fields n off = None -> ~ In n (map fst fields).
Proof.
  induction fields as [|[k t] r IH]; intros n off H; simpl in *.
  - tauto.
  - destruct (String.eqb k n) eqn:E; [discriminate|].
    apply String.eqb_neq in E. intros [?|Hin]; [congruence|].
    eapply IH; eauto.
Qed.

(** The dictionary of a record holds every field under its name. *)
Lemma dict_get_sarray2dict host a n :
  dict_get (sarray2dict host a) n = getfield host a n.
Proof.
  unfold sarray2dict.
  assert (G : forall l : list (string * ftype),
             (forall f, In f l -> getfield host a (fst f) <> None) ->
             dict_get (flat_map (fun f => match getfield host a (fst f) with
                                          | Some v => [(fst f, v)]
                                          | None => []
                                          end) l) n
             = if existsb (fun f => String.eqb (fst f) n) l
               then getfield host a n else None).
  { induction l as [|f r IH]; intro Hl; [reflexivity|].
    cbn [flat_map existsb].
    destruct (getfield host a (fst f)) as [v|] eqn:Gf.
    - cbn [app dict_get].
      destruct (String.eqb (fst f) n) eqn:E.
      + apply String.eqb_eq in E. subst n. now rewrite Gf.
      + cbn [orb]. apply IH. intros f' Hf'. apply Hl. now right.
    - exfalso. apply (Hl f); [now left|assumption]. }
  rewrite G.
  - destruct (existsb _ (sa_fields a)) eqn:E; [reflexivity|].
    unfold getfield.
    destruct (locate (sa_fields a) n 0) as [[off t]|] eqn:L; [|reflexivity].
    exfalso.
    assert (Hin : exists t', In (n, t') (sa_fields a)).
    { clear - L. revert L. generalize 0%nat.
      induction (sa_fields a) as [|[k t'] r IH]; intros o L; simpl in L.
      - discriminate.
      - destruct (String.eqb k n) eqn:E.
        + apply String.eqb_eq in E. subst. exists t'. now left.
        + destruct (IH _ L) as [t'' ?]. exists t''. now right. }
    destruct Hin as [t' Hin].
    assert (existsb (fun f => String.eqb (fst f) n) (sa_fields a) = true).
    { apply existsb_exists. exists (n, t'). split; [assumption|].
      apply String.eqb_refl. }
    congruence.
  - intros f Hf. unfold getfield.
    destruct (locate (sa_fields a) (fst f) 0) as [[off t]|] eqn:L; [discriminate|].
    apply locate_none in L. exfalso. apply L. now apply in_map.
Qed.

Lemma dict_int_sarray2dict host a extra n v :
  field_int host a n = Ok v ->
  dict_int (sarray2dict host a ++ extra) n = Ok v.
Proof.
  unfold field_int, dict_int. rewrite dict_get_app, dict_get_sarray2dict.
  destruct (getfield host a n) as [[| |]|]; try discriminate. auto.
Qed.

Lemma dict_int_sarray2dict_plain host a n v :
  field_int host a n = Ok v -> dict_int (sarray2dict host a) n = Ok v.
Proof.
  intro H. rewrite <- (app_nil_r (sarray2dict host a)).
  now apply dict_int_sarray2dict.
Qed.

(** *** Blocks of a buffer *)

Lemma length_chunks {A} (n count : nat) : forall l : list A,
  length (chunks n count l) = count.
Proof.
  induction count as [|c IH]; intro l; simpl; [reflexivity|]. now rewrite IH.
Qed.

Lemma chunks_full {A} (n count : nat) : forall l : list A,
  length l = (count * n)%nat ->
  Forall (fun x => length x = n) (chunks n count l) /\
  concat (chunks n count l) = l.
Proof.
  induction count as [|c IH]; intros l H; simpl in *.
  - split; [constructor|]. destruct l; [reflexivity|discriminate].
  - destruct (IH (skipn n l)) as [F C].
    + rewrite length_skipn. lia.
    + split.
      * constructor; [|assumption]. rewrite length_firstn. lia.
      * rewrite C. apply firstn_skipn.
Qed.

Lemma length_frame_head o k : length (frame_head o k) = 6%nat.
Proof. unfold frame_head. now rewrite length_app, !length_uint_bytes. Qed.

Lemma length_framed o n : forall imgs k,
  Forall (fun img => length img = n) imgs ->
  length (framed o k imgs) = (length imgs * (6 + n))%nat.
Proof.
  induction imgs as [|img r IH]; intros k F; simpl; [reflexivity|].
  inversion F; subst.
  rewrite !length_app, length_frame_head, IH by assumption.
  unfold astype_u1. rewrite length_map. lia.
Qed.

(** Cutting the stack into frames and dropping the heads gives the
    frames back. *)
Lemma unframe o n : forall imgs k,
  Forall (fun img => length img = n) imgs ->
  map (skipn 6) (chunks (6 + n) (length imgs) (framed o k imgs))
  = map astype_u1 imgs.
Proof.
  induction imgs as [|img r IH]; intros k F; [reflexivity|].
  inversion F; subst.
  cbn [length chunks framed map].
  set (X := frame_head o k ++ astype_u1 img).
  assert (L : length X = (6 + length img)%nat).
  { unfold X. rewrite length_app, length_frame_head. unfold astype_u1.
    now rewrite length_map. }
  rewrite app_assoc. fold X. rewrite <- L.
  assert (F1 : forall Y : list byte, firstn (length X) (X ++ Y) = X).
  { intro Y. rewrite firstn_app, Nat.sub_diag, firstn_all. cbn [firstn].
    apply app_nil_r. }
  assert (F2 : forall Y : list byte, skipn (length X) (X ++ Y) = Y).
  { intro Y. rewrite skipn_app, Nat.sub_diag, skipn_all. reflexivity. }
  rewrite F1, F2, L, IH by assumption.
  f_equal. unfold X.
  rewrite skipn_app, length_frame_head, Nat.sub_diag.
  rewrite (skipn_all2 (frame_head o k)) by (rewrite length_frame_head; lia).
  reflexivity.
Qed.

Lemma concat_astype_u1 (imgs : list (list Z)) :
  concat (map astype_u1 imgs) = map u8 (concat imgs).
Proof.
  unfold astype_u1. now rewrite concat_map.
Qed.

(** *** The type strings of a call that went through *)


Lemma np_dtype_header_valid e :
  valid_endianess e ->
  np_dtype (get_header_dtype_list e) = Ok (header_record (order_of_endianess e)).
Proof. intros [ -> | [ -> | [ -> | [ -> | -> ] ] ] ]; reflexivity. Qed.

Lemma np_dtype_u1_valid e :
  valid_endianess e ->
  exists dt, np_dtype [("", Code (e ++ "u1"))] = Ok dt.
Proof. intros [ -> | [ -> | [ -> | [ -> | -> ] ] ] ]; eexists; reflexivity. Qed.

Lemma dp_head_setup host e :
  valid_endianess e ->
  exists dt,
    np_dtype [("MAGIC", Code (e ++ "u2")); ("ID", Code (e ++ "u4"))] = Ok dt /\
    setfield host (zeros_record dt) "MAGIC" (VInt 21930)
    = Ok (dp_head_at host (order_of_endianess e) 0).
Proof.
  intros [ -> | [ -> | [ -> | [ -> | -> ] ] ] ]; eexists; (split; [reflexivity|]);
    destruct host; reflexivity.
Qed.

(** *** The fields of a derived header *)

Lemma derived_field_int host clock s e header note n v off o k :
  get_header_from_signal host clock s e = Ok (header, note) ->
  (forall d1, dict_get (derived_fields s d1) n = Some (VInt v)) ->
  locate (header_record (order_of_endianess e)) n 0
  = Some (off, FScalar {| sc_order := o; sc_kind := UInt; sc_size := k |}) ->
  field_int host header n = Ok (wrap k v).
Proof.
  intros H G L.
  apply get_header_from_signal_ok in H.
  destruct H as (bh & h0 & d1 & _ & _ & D & _ & _ & _ & U).
  apply dict2sarray_dtype_ok in D. destruct D as (Fh & W & _).
  eapply field_int_assigned; eauto.
  - rewrite Fh. apply header_names_NoDup.
  - rewrite Fh. exact L.
Qed.

Lemma header_field_int_exists host header o n off k :
  sa_fields header = header_record o ->
  locate (header_record o) n 0
  = Some (off, FScalar {| sc_order := o; sc_kind := UInt; sc_size := k |}) ->
  exists v, field_int host header n = Ok v.
Proof.
  intros F L. unfold field_int, getfield. rewrite F, L.
  cbn [decode sc_kind]. eauto.
Qed.

Lemma header_field_float_exists host header o n off extra :
  sa_fields header = header_record o ->
  locate (header_record o) n 0
  = Some (off, FScalar {| sc_order := o; sc_kind := Float; sc_size := 8 |}) ->
  exists x, dict_float (sarray2dict host header ++ extra) n = Ok x.
Proof.
  intros F L. unfold dict_float.
  rewrite dict_get_app, dict_get_sarray2dict. unfold getfield. rewrite F, L.
  cbn [decode sc_kind]. eauto.
Qed.

(** *** The writer after the note *)

Lemma length_iterate_signal s NX NY :
  navigation_shape s = (NX, NY) ->
  length (_iterate_signal s) = Z.to_nat (NX * NY).
Proof.
  intro H. unfold _iterate_signal. rewrite H.
  destruct (signal_shape s). apply length_chunks.
Qed.

Lemma length_virtual_bright_field s NX NY :
  navigation_shape s = (NX, NY) ->
  length (virtual_bright_field s) = Z.to_nat (NX * NY).
Proof.
  intro H. unfold virtual_bright_field.
  destruct (signal_shape s) eqn:S. rewrite length_map.
  now apply length_iterate_signal.
Qed.

Lemma write_stack_run host s e header f NX NY d2 nx ny :
  valid_endianess e ->
  navigation_shape s = (NX, NY) ->
  field_int host header "Data_offset_2" = Ok d2 ->
  field_int host header "NX" = Ok nx ->
  field_int host header "NY" = Ok ny ->
  0 <= NX * NY <= wrap 2 (nx * ny) ->
  Z.of_nat (length f) + NX * NY <= d2 ->
  write_stack host s e header f
  = (Ok tt,
     f ++ virtual_bright_field s
       ++ repeat x00 (Z.to_nat (d2 - Z.of_nat (length f) - NX * NY))
       ++ framed (order_for host e) 0 (_iterate_signal s)).
Proof.
  intros V Hn D2 Hx Hy Hl Hp.
  unfold write_stack.
  destruct (np_dtype_u1_valid e V) as [dt1 E1].
  destruct (dp_head_setup host e V) as (dt2 & E2 & E3).
  unfold io_bind at 1. unfold io_lift at 1. rewrite E1.
  unfold io_bind at 1. unfold io_write at 1.
  unfold io_bind at 1. unfold io_lift at 1. rewrite D2.
  unfold io_bind at 1. unfold io_tell at 1.
  unfold io_bind at 1. unfold io_lift at 1.
  rewrite length_app, (length_virtual_bright_field s NX NY Hn).
  unfold zeros.
  destruct (d2 - Z.of_nat (length f + Z.to_nat (NX * NY)) <? 0) eqn:Z0;
    [apply Z.ltb_lt in Z0; lia|].
  unfold io_bind at 1. unfold io_write at 1.
  unfold io_bind at 1. unfold io_lift at 1. rewrite E2.
  unfold io_bind at 1. unfold io_lift at 1. rewrite E3.
  unfold io_bind at 1. unfold io_lift at 1. rewrite Hx.
  unfold io_bind at 1. unfold io_lift at 1. rewrite Hy.
  pose proof (wrap_range 2 (nx * ny)) as R.
  change (2 ^ (8 * Z.of_nat 2)) with 65536 in R.
  rewrite write_frames_from by lia.
  rewrite (length_iterate_signal s NX NY Hn).
  destruct (0 + Z.of_nat (Z.to_nat (NX * NY)) <=? wrap 2 (nx * ny)) eqn:C;
    [|apply Z.leb_gt in C; lia].
  unfold order_for. rewrite <- !app_assoc.
  replace (Z.to_nat (d2 - Z.of_nat (length f + Z.to_nat (NX * NY))))
    with (Z.to_nat (d2 - Z.of_nat (length f) - NX * NY)) by lia.
  reflexivity.
Qed.

(** *** When the header is derived *)

Lemma encode_fits host t v :
  fits t v = true -> exists bs, encode host t v = Ok bs.
Proof.
  destruct t as [n|t], v as [s|z|x]; cbn [fits encode]; try discriminate.
  - eauto.
  - destruct (sc_kind t); [|discriminate].
    intro H. apply andb_prop in H. destruct H as [H H3].
    apply andb_prop in H. destruct H as [H1 H2].
    apply Z.leb_le in H1. apply Z.ltb_lt in H3.
    rewrite to_long_small by lia. cbn [bind]. eauto.
  - destruct (sc_kind t); [discriminate|]. eauto.
Qed.

Lemma locate_some fields : forall n off,
  In n (map fst fields) -> exists o t, locate fields n off = Some (o, t) /\ In (n, t) fields.
Proof.
  induction fields as [|[k t] r IH]; intros n off H; simpl in *.
  - destruct H.
  - destruct (String.eqb k n) eqn:E.
    + apply String.eqb_eq in E. subst. exists off, t. split; auto.
    + destruct H as [H|H]; [apply String.eqb_neq in E; congruence|].
      destruct (IH n (off + itemsize t)%nat H) as (o & t' & L & I).
      exists o, t'. split; auto.
Qed.

Lemma locate_first fields : forall n off o t,
  locate fields n off = Some (o, t) ->
  forall d, fits_record fields d = true ->
  forall v, dict_get d n = Some v -> fits t v = true.
Proof.
  induction fields as [|[k t'] r IH]; intros n off o t L d F v G; simpl in *.
  - discriminate.
  - apply andb_prop in F. destruct F as [F1 F2].
    destruct (String.eqb k n) eqn:E.
    + apply String.eqb_eq in E. subst. inversion L; subst.
      now rewrite G in F1.
    + eapply IH; eauto.
Qed.

Lemma assign_fields_returns host d fields : forall names a,
  sa_fields a = fields ->
  fits_record fields d = true ->
  (forall n, In n names -> In n (map fst fields)) ->
  exists a', assign_fields host names d a = Ok a'.
Proof.
  induction names as [|n r IH]; intros a Fa F Hn; simpl.
  - eauto.
  - assert (Hr : forall n', In n' r -> In n' (map fst fields))
      by (intros; apply Hn; now right).
    destruct (dict_get d n) as [v|] eqn:G; [|now apply IH].
    destruct (locate_some fields n 0 (Hn n (or_introl eq_refl))) as (o & t & L & _).
    destruct (encode_fits host t v (locate_first _ _ _ _ _ L d F v G)) as [bs E].
    unfold setfield. rewrite Fa, L, E. cbn [Py.bind].
    apply IH; auto.
Qed.

Lemma dict2sarray_returns host d a :
  fits_record (sa_fields a) d = true ->
  exists a', dict2sarray host d a = Ok a'.
Proof.
  intro F. unfold dict2sarray.
  eapply assign_fields_returns; eauto.
Qed.

Lemma assign_fields_encodes host d fields : forall names a,
  sa_fields a = fields ->
  (forall n v, In n names -> dict_get d n = Some v ->
     exists off t bs, locate fields n 0 = Some (off, t) /\ encode host t v = Ok bs) ->
  exists a', assign_fields host names d a = Ok a'.
Proof.
  induction names as [|n r IH]; intros a Fa Hn; simpl.
  - eauto.
  - assert (Hr : forall n' v, In n' r -> dict_get d n' = Some v ->
               exists off t bs, locate fields n' 0 = Some (off, t) /\
                                encode host t v = Ok bs)
      by (intros n' v I G; apply (Hn n' v); [now right|exact G]).
    destruct (dict_get d n) as [v|] eqn:G; [|now apply IH].
    destruct (Hn n v (or_introl eq_refl) G) as (off & t & bs & L & E).
    unfold setfield. rewrite Fa, L, E. cbn [Py.bind].
    apply IH; auto.
Qed.

(** The fields derived from a signal can be stored when the shapes are
    within a C [long] and [100 / scale] is a finite number whose whole part
    is. *)
Lemma derived_fields_stored host s d1 o a NX NY :
  sa_fields a = header_record o ->
  navigation_shape s = (NX, NY) ->
  - 2 ^ 63 <= NX < 2 ^ 63 -> - 2 ^ 63 <= NY < 2 ^ 63 ->
  - 2 ^ 63 <= fst (signal_shape s) < 2 ^ 63 ->
  (exists z, int_of_float (100 / fst (signal_scales s)) = Ok z /\
             - 2 ^ 63 <= z < 2 ^ 63) ->
  exists a', dict2sarray host (derived_fields s d1) a = Ok a'.
Proof.
  intros Fa Hn Px Py Pw (z & Iz & Pz).
  assert (T : forall k v, - 2 ^ 63 <= v < 2 ^ 63 -> to_long k v = Ok v).
  { intros k v Hv. unfold to_long.
    assert (2 ^ 63 < 2 ^ 64) by reflexivity.
    destruct (- 2 ^ 63 <=? v) eqn:A; [|apply Z.leb_gt in A; lia].
    destruct (v <? (if (k <? 4)%nat then 2 ^ 63 else 2 ^ 64)) eqn:B; [reflexivity|].
    apply Z.ltb_ge in B. destruct (k <? 4)%nat; lia. }
  unfold dict2sarray. eapply assign_fields_encodes; [exact Fa|].
  intros n v _ G. unfold derived_fields in G. rewrite Hn in G.
  cbn [dict_get] in G.
  repeat match type of G with
         | (if String.eqb ?k n then _ else _) = _ =>
             let E := fresh "E" in
             destruct (String.eqb k n) eqn:E;
             [apply String.eqb_eq in E; subst n; inversion G; subst v; clear G|]
         end; [ .. | discriminate G].
  - do 3 eexists. split; [reflexivity|]. cbn [encode sc_kind sc_size].
    rewrite T by lia. reflexivity.
  - do 3 eexists. split; [reflexivity|]. cbn [encode sc_kind sc_size].
    rewrite T by lia. reflexivity.
  - do 3 eexists. split; [reflexivity|]. cbn [encode sc_kind sc_size].
    rewrite T by lia. reflexivity.
  - do 3 eexists. split; reflexivity.
  - do 3 eexists. split; reflexivity.
  - do 3 eexists. split; [reflexivity|]. cbn [encode sc_kind sc_size].
    rewrite Iz. cbn [Py.bind]. rewrite T by lia. reflexivity.
  - do 3 eexists. split; [reflexivity|]. cbn [encode sc_kind sc_size].
    match goal with |- context [to_long _ (wrap 4 ?x)] =>
      pose proof (wrap_range 4 x) as Rw end.
    change (2 ^ (8 * Z.of_nat 4)) with (2 ^ 32) in Rw.
    assert (2 ^ 32 < 2 ^ 63) by reflexivity.
    rewrite T by lia. reflexivity.
Qed.

(** [get_header_from_signal] returns a header for a signal with square
    frames and a signal scale other than zero that brings along a header
    dictionary with a note whose entries fit the fields, when the shapes
    are within a C [long] and [100 / scale] is a finite number whose whole
    part is. *)
Lemma get_header_from_signal_returns host clock s e blockfile_header note NX NY :
  original_metadata s = Some blockfile_header ->
  dict_get blockfile_header "Note" = Some note ->
  valid_endianess e ->
  fits_record (header_record (order_of_endianess e)) blockfile_header = true ->
  navigation_shape s = (NX, NY) ->
  - 2 ^ 63 <= NX < 2 ^ 63 -> - 2 ^ 63 <= NY < 2 ^ 63 ->
  - 2 ^ 63 <= fst (signal_shape s) < 2 ^ 63 ->
  fst (signal_shape s) = snd (signal_shape s) ->
  PrimFloat.eqb (fst (signal_scales s)) 0 = false ->
  (exists z, int_of_float (100 / fst (signal_scales s)) = Ok z /\
             - 2 ^ 63 <= z < 2 ^ 63) ->
  exists header, get_header_from_signal host clock s e = Ok (header, note).
Proof.
  intros OM N V F Hn Px Py Pw Sq Sc Pz.
  unfold get_header_from_signal. rewrite OM.
  unfold dict2sarray_dtype. rewrite (np_dtype_header_valid e V). cbn [Py.bind].
  destruct (dict2sarray_returns host blockfile_header
              (zeros_record (header_record (order_of_endianess e))) F) as [h0 D].
  rewrite D. cbn [Py.bind]. rewrite N. cbn [Py.bind].
  rewrite Hn.
  apply Z.eqb_eq in Sq. rewrite Sq. cbn [negb]. rewrite Sc. cbn [Py.bind].
  assert (Fh : sa_fields h0 = header_record (order_of_endianess e)).
  { unfold dict2sarray in D. now apply assign_fields_fields in D. }
  destruct (header_field_int_exists host h0 _ "Data_offset_1" 8%nat 4%nat Fh eq_refl)
    as [d1 D1].
  rewrite D1. cbn [Py.bind].
  destruct (derived_fields_stored host s d1 _ h0 NX NY Fh Hn Px Py Pw Pz) as [h U].
  unfold derived_fields in U. rewrite Hn in U.
  rewrite U. cbn [Py.bind]. eauto.
Qed.

(** An integer field the signal does not set is the one of the header
    dictionary, wrapped to the width of the field. *)
Lemma inherited_field_int host clock s e header note blockfile_header n v off o k :
  get_header_from_signal host clock s e = Ok (header, note) ->
  original_metadata s = Some blockfile_header ->
  dict_get blockfile_header n = Some (VInt v) ->
  (forall d1, dict_get (derived_fields s d1) n = None) ->
  locate (header_record (order_of_endianess e)) n 0
  = Some (off, FScalar {| sc_order := o; sc_kind := UInt; sc_size := k |}) ->
  field_int host header n = Ok (wrap k v).
Proof.
  intros H OM G Gd L.
  apply get_header_from_signal_ok in H.
  destruct H as (bh & h0 & d1 & OM' & _ & D & _ & _ & _ & U).
  rewrite OM in OM'. inversion OM'; subst bh.
  pose proof (dict2sarray_dtype_ok _ _ _ _ D) as (Fh & W & V).
  rewrite (field_int_untouched _ _ _ _ n W U (Gd d1)).
  unfold dict2sarray_dtype in D.
  rewrite (np_dtype_header_valid e V) in D. cbn [Py.bind] in D.
  eapply field_int_assigned; [| |exact D|exact G|exact L].
  - reflexivity.
  - apply header_names_NoDup.
Qed.

(** *** The reader on a file laid out by the writer *)

Lemma file_reader_run host e header mid imgs d1 d2 nx ny dp :
  valid_endianess e ->
  sa_fields header = header_record (order_of_endianess e) ->
  length (tofile header) = 240%nat ->
  field_int host header "Data_offset_1" = Ok d1 ->
  field_int host header "Data_offset_2" = Ok d2 ->
  field_int host header "NX" = Ok nx ->
  field_int host header "NY" = Ok ny ->
  field_int host header "DP_SZ" = Ok dp ->
  0 <= nx -> 0 <= ny -> 0 <= dp -> dp * dp < 65536 ->
  length imgs = Z.to_nat (ny * nx) ->
  Forall (fun img => length img = Z.to_nat (dp * dp)) imgs ->
  Z.of_nat (240 + length mid) = d2 ->
  exists r,
    file_reader host (Some (tofile header ++ mid ++ framed (order_for host e) 0 imgs)) e
    = Ok r /\
    r_data r = {| shape := [ny; nx; dp; dp]; buf := map u8 (concat imgs) |} /\
    dict_int (r_header r) "DP_SZ" = Ok dp.
Proof.
  intros V F L D1 D2 Hx Hy Hd Px Py Pd Pq Li Fi Hm.
  set (stack := framed (order_for host e) 0 imgs).
  set (f := tofile header ++ mid ++ stack).
  assert (Ls : length stack = (length imgs * (6 + Z.to_nat (dp * dp)))%nat)
    by (apply length_framed; assumption).
  assert (Lf : length f = (240 + length mid + length stack)%nat)
    by (unfold f; rewrite !length_app, L; lia).
  unfold file_reader. cbn [Py.bind].
  rewrite (np_dtype_header_valid e V). cbn [Py.bind].
  unfold fromfile. rewrite record_size_header.
  destruct (length f <? 240)%nat eqn:C; [apply Nat.ltb_lt in C; lia|].
  assert (Hh : {| sa_fields := header_record (order_of_endianess e);
                  sa_buf := firstn 240 f |} = header).
  { unfold f. rewrite <- L, firstn_app, Nat.sub_diag, firstn_all.
    cbn [firstn]. rewrite app_nil_r. rewrite <- F.
    destruct header; reflexivity. }
  rewrite Hh. cbn [Py.bind].
  rewrite (dict_int_sarray2dict_plain _ _ _ _ D1). cbn [Py.bind].
  set (note := if d1 - Z.of_nat 240 <? 0 then skipn 240 f
               else firstn (Z.to_nat (d1 - Z.of_nat 240)) (skipn 240 f)).
  rewrite (dict_int_sarray2dict host header [("Note", VStr note)] _ _ Hx).
  cbn [Py.bind].
  rewrite (dict_int_sarray2dict host header [("Note", VStr note)] _ _ Hy).
  cbn [Py.bind].
  rewrite (dict_int_sarray2dict host header [("Note", VStr note)] _ _ Hd).
  cbn [Py.bind].
  destruct (header_field_int_exists host header _ "SDP" 50%nat 2%nat F eq_refl)
    as [sdp Hs].
  rewrite (dict_int_sarray2dict host header [("Note", VStr note)] _ _ Hs).
  cbn [Py.bind].
  rewrite (dict_int_sarray2dict host header [("Note", VStr note)] _ _ D2).
  cbn [Py.bind].
  assert (Wd : wrap 2 (dp * dp) = dp * dp)
    by (apply wrap_small; change (2 ^ (8 * Z.of_nat 2)) with 65536; nia).
  rewrite Wd.
  assert (Ez : Z.of_nat (length stack) = ny * nx * (dp * dp + 6)).
  { rewrite Ls, Li. rewrite Nat2Z.inj_mul, Nat2Z.inj_add, !Z2Nat.id by nia.
    change (Z.of_nat 6) with 6. ring. }
  destruct (Z.of_nat (length f) <? d2 + ny * nx * (dp * dp + 6)) eqn:C2;
    [apply Z.ltb_lt in C2; lia|].
  rewrite Z.eqb_refl. cbn [negb].
  destruct (header_field_float_exists host header _ "SX" 30%nat
              [("Note", VStr note)] F eq_refl) as [SX HSX].
  destruct (header_field_float_exists host header _ "SY" 38%nat
              [("Note", VStr note)] F eq_refl) as [SY HSY].
  rewrite HSX, HSY. cbn [Py.bind].
  cbn [mapM xrange seq Z.to_nat Pos.to_nat Pos.iter_op Nat.add shape].
  cbn.
  eexists. split; [reflexivity|]. cbn [r_data r_header].
  split.
  - f_equal.
    assert (Sk : skipn (Z.to_nat d2) f = stack).
    { unfold f. rewrite app_assoc.
      rewrite skipn_app.
      replace (Z.to_nat d2) with (length (tofile header ++ mid))
        by (rewrite length_app, L; lia).
      now rewrite Nat.sub_diag, skipn_all. }
    rewrite Sk.
    rewrite firstn_all2 by lia.
    replace (Z.to_nat (dp * dp + 6)) with (6 + Z.to_nat (dp * dp))%nat by lia.
    rewrite <- Li. unfold stack. rewrite unframe by assumption.
    apply concat_astype_u1.
  - apply dict_int_sarray2dict. exact Hd.
Qed.

(** *** The round trip of a cube that brings a header along *)

(** A signal whose header is derived from a previous one (the only way a
    header is obtained) is written and read back with the same byte
    order: the data comes back as it was written, frame by frame, with the
    shape [(NY, NX, W, W)], and the header read holds [DP_SZ = W].  The
    grid, the frames and the offsets have to fit the fields of the
    header. *)
Lemma cube_with_header_round_trips host clock dest s e header note d1 NX NY W :
  get_header_from_signal host clock s e = Ok (header, VStr note) ->
  navigation_shape s = (NX, NY) ->
  signal_shape s = (W, W) ->
  field_int host header "Data_offset_1" = Ok d1 ->
  240 <= d1 ->
  0 <= NX < 65536 -> 0 <= NY < 65536 -> NX * NY < 65536 ->
  0 <= W -> W * W < 65536 ->
  NX * NY + d1 + (NX * NY + d1) mod 16 < 2 ^ 32 ->
  length (data s) = Z.to_nat (NX * NY * (W * W)) ->
  exists f r,
    file_writer host clock dest s e = (Ok tt, Some f) /\
    file_reader host (Some f) e = Ok r /\
    r_data r = {| shape := [NY; NX; W; W]; buf := map u8 (data s) |} /\
    dict_int (r_header r) "DP_SZ" = Ok W.
Proof.
  intros H Hn Hs D1 Hd1 Px Py Pxy Pw Pww Po Ld.
  destruct (header_of_signal_shape _ _ _ _ _ _ H) as (Fh & Wf & L & V).
  destruct (derived_data_offset_2 _ _ _ _ _ _ _ _ _ H Hn D1) as [D2 Rd1].
  pose proof (Z.mod_pos_bound (NX * NY + d1) 16 ltac:(lia)) as M16.
  rewrite wrap_small in D2 by (change (2 ^ (8 * Z.of_nat 4)) with (2 ^ 32); nia).
  set (d2 := NX * NY + d1 + (NX * NY + d1) mod 16) in *.
  assert (Hx : field_int host header "NX" = Ok NX).
  { rewrite <- (wrap_small 2 NX) at 1 by (change (2 ^ (8 * Z.of_nat 2)) with 65536; lia).
    eapply derived_field_int; [exact H| |reflexivity].
    intro. unfold derived_fields. rewrite Hn. reflexivity. }
  assert (Hy : field_int host header "NY" = Ok NY).
  { rewrite <- (wrap_small 2 NY) at 1 by (change (2 ^ (8 * Z.of_nat 2)) with 65536; lia).
    eapply derived_field_int; [exact H| |reflexivity].
    intro. unfold derived_fields. rewrite Hn. reflexivity. }
  assert (Hp : field_int host header "DP_SZ" = Ok W).
  { rewrite <- (wrap_small 2 W) at 1 by (change (2 ^ (8 * Z.of_nat 2)) with 65536; nia).
    eapply derived_field_int; [exact H| |reflexivity].
    intro. unfold derived_fields. rewrite Hn, Hs. reflexivity. }
  (* the writer *)
  set (room := Z.to_nat (d1 - Z.of_nat (length (tofile header)))).
  set (stored := firstn room note).
  set (padding := repeat x00 (room - length stored)).
  set (f1 := tofile header ++ stored ++ padding).
  assert (Lf1 : Z.of_nat (length f1) = d1).
  { unfold f1, padding, stored, room.
    rewrite !length_app, repeat_length, length_firstn, L. lia. }
  set (pad2 := repeat x00 (Z.to_nat (d2 - Z.of_nat (length f1) - NX * NY))).
  set (imgs := _iterate_signal s).
  set (stack := framed (order_for host e) 0 imgs).
  assert (Wr : file_writer host clock dest s e
               = (Ok tt, Some (f1 ++ virtual_bright_field s ++ pad2 ++ stack))).
  { unfold file_writer. rewrite H.
    rewrite (write_blockfile_split _ _ _ _ _ d1 _ D1). cbn [app].
    rewrite write_note_run by (rewrite L; lia).
    fold room stored padding f1.
    rewrite (write_stack_run host s e header f1 NX NY d2 NX NY V Hn D2 Hx Hy).
    - reflexivity.
    - rewrite wrap_small by (change (2 ^ (8 * Z.of_nat 2)) with 65536; nia). nia.
    - unfold d2. lia. }
  (* the reader *)
  assert (Li : length imgs = Z.to_nat (NY * NX)).
  { unfold imgs. rewrite (length_iterate_signal s NX NY Hn). f_equal. lia. }
  assert (Ei : imgs = chunks (Z.to_nat (W * W)) (Z.to_nat (NX * NY)) (data s)).
  { unfold imgs, _iterate_signal. rewrite Hn, Hs. reflexivity. }
  destruct (chunks_full (Z.to_nat (W * W)) (Z.to_nat (NX * NY)) (data s))
    as [Fi Ci].
  { rewrite Ld. rewrite <- Z2Nat.inj_mul by nia. reflexivity. }
  rewrite <- Ei in Fi, Ci.
  destruct (file_reader_run host e header
              (stored ++ padding ++ virtual_bright_field s ++ pad2)
              imgs d1 d2 NX NY W V Fh L D1 D2 Hx Hy Hp) as (r & Rr & Rd & Rp);
    try assumption; try lia.
  { assert (Lf1' : length f1 = (240 + (length stored + length padding))%nat)
      by (unfold f1; rewrite !length_app, L; reflexivity).
    rewrite !length_app. unfold pad2. rewrite repeat_length.
    rewrite (length_virtual_bright_field s NX NY Hn).
    assert (d1 + NX * NY <= d2) by (unfold d2; lia).
    lia. }
  exists (f1 ++ virtual_bright_field s ++ pad2 ++ stack), r.
  split; [exact Wr|].
  split.
  - rewrite <- Rr. unfold f1, stack. now rewrite <- !app_assoc.
  - split; [|exact Rp]. rewrite Rd, Ci. reflexivity.
Qed.

(** The cube of the round-trip property, [(NY=3, NX=2, 4, 4)] of unsigned
    8-bit values, written from a signal that carries the sample header
    (with any note) and read back, both with the default byte order, the
    signal scale being such that [100 / scale] is a finite number within a
    C [long]: the data read is the cube, and the header read holds
    [DP_SZ = 4]. *)
Lemma u8_cube_with_sample_header_round_trips host clock dest (cube : list byte)
  nav_scales sig_scales note :
  length cube = 96%nat ->
  PrimFloat.eqb (fst sig_scales) 0 = false ->
  (exists z, int_of_float (100 / fst sig_scales) = Ok z /\ - 2 ^ 63 <= z < 2 ^ 63) ->
  let s := {| data := map Z_of_byte cube;
              navigation_shape := (2, 3);
              signal_shape := (4, 4);
              navigation_scales := nav_scales;
              signal_scales := sig_scales;
              original_metadata := Some (sample_blockfile_header 4096 note) |} in
  exists f r,
    file_writer host clock dest s default_endianess = (Ok tt, Some f) /\
    file_reader host (Some f) default_endianess = Ok r /\
    r_data r = {| shape := [3; 2; 4; 4]; buf := cube |} /\
    dict_int (r_header r) "DP_SZ" = Ok 4.
Proof.
  intros Lc Hs Pz s.
  assert (G : exists header,
             get_header_from_signal host clock s default_endianess
             = Ok (header, VStr (bytes_of_string note)) /\
             field_int host header "Data_offset_1" = Ok 4096).
  { assert (V : valid_endianess default_endianess) by (left; reflexivity).
    assert (P63 : 2 ^ 63 = 9223372036854775808) by reflexivity.
    assert (P2 : - 2 ^ 63 <= 2 < 2 ^ 63) by lia.
    assert (P3 : - 2 ^ 63 <= 3 < 2 ^ 63) by lia.
    assert (P4 : - 2 ^ 63 <= 4 < 2 ^ 63) by lia.
    destruct (get_header_from_signal_returns host clock s default_endianess
                (sample_blockfile_header 4096 note) (VStr (bytes_of_string note)) 2 3
                eq_refl eq_refl V eq_refl eq_refl P2 P3 P4 eq_refl Hs Pz)
      as [header H].
    exists header. split; [exact H|].
    change (@Ok Z 4096) with (@Ok Z (wrap 4 4096)).
    eapply inherited_field_int; [exact H|reflexivity|reflexivity| |reflexivity].
    intro d1. reflexivity. }
  destruct G as (header & H & D1).
  destruct (cube_with_header_round_trips host clock dest s default_endianess
              header (bytes_of_string note) 4096 2 3 4 H) as (f & r & Wr & Rr & Rd & Rp);
    try reflexivity; try lia; try assumption.
  - cbn [data s]. now rewrite length_map, Lc.
  - exists f, r. repeat split; try assumption.
    rewrite Rd. cbn [data s]. f_equal.
    rewrite map_map. rewrite <- (map_id cube) at 2.
    apply map_ext. apply u8_Z_of_byte.
Qed.

(* ------------------------------------------------------------------ *)
(** ** Further properties of the codec *)

(** *** The byte order asked for *)

(** X1. The header record type: for each of the five byte-order values
    ["<"], [">"], ["="], ["|"] and [""] of [endianess],
    [np.dtype(get_header_dtype_list(endianess))] is understood and is the
    header record in that byte order (["="], ["|"] and [""] leave the order
    to the host); the record is packed into 240 bytes and has 38 fields
    with distinct names, whatever the byte order. *)
Theorem header_dtype_accepts_five_endianess (e : string) :
  valid_endianess e ->
  np_dtype (get_header_dtype_list e) = Ok (header_record (order_of_endianess e)) /\
  (forall o, record_size (header_record o) = 240%nat /\
             length (header_record o) = 38%nat /\
             NoDup (map fst (header_record o))).
Proof.
  intro V. split; [now apply np_dtype_header_valid|].
  intro o. split; [reflexivity|]. split; [reflexivity|].
  apply header_names_NoDup.
Qed.

Lemma header_dtype_accepts_five_endianess_witness :
  np_dtype (get_header_dtype_list "|") = Ok (header_record None) /\
  record_size (header_record None) = 240%nat.
Proof.
  assert (V : valid_endianess "|") by (do 3 right; left; reflexivity).
  split.
  - exact (proj1 (header_dtype_accepts_five_endianess "|" V)).
  - exact (proj1 (proj2 (header_dtype_accepts_five_endianess "|" V) None)).
Defined.

(** *** What the writer does before and after it opens the file *)

(** X13. The default header: [get_default_header] returns for no reading
    of the clock and no [endianess]; it raises [TypeError], the clock being
    read as a naive [datetime] and subtracted from an aware epoch.  A signal
    without a ['blockfile_header'] is therefore never written, whatever its
    shape and whatever [endianess] is asked for, and the destination stays
    as it was. *)
Theorem default_header_is_never_built host clock dest s e :
  get_default_header host clock e = Raise naive_minus_aware /\
  (original_metadata s = None ->
   file_writer host clock dest s e = (Raise naive_minus_aware, dest)).
Proof.
  split; [apply get_default_header_raises|].
  intro OM. apply file_writer_raises_before_open.
  now apply get_header_from_signal_fresh.
Qed.

Lemma default_header_is_never_built_witness :
  file_writer BigEndian 1000000 (Some [x01; x02]) (sample_signal None) "not an order"
  = (Raise naive_minus_aware, Some [x01; x02]).
Proof.
  exact (proj2 (default_header_is_never_built BigEndian 1000000 (Some [x01; x02])
                  (sample_signal None) "not an order") eq_refl).
Defined.

Lemma appends_write_blockfile_tail host s e header note d1 :
  appends (io_bind (write_note d1 note) (fun _ => write_stack host s e header)).
Proof.
  apply appends_bind; [apply appends_write_note|].
  intro. apply appends_write_stack.
Qed.

(** X14. No rollback, no half header: either the header could not be
    derived, and [file_writer] raises with the destination untouched, or
    the destination is replaced by a file that starts with the complete
    header record, also when a later step raises. *)
Theorem file_writer_leaves_nothing_or_a_header host clock dest s e :
  match get_header_from_signal host clock s e with
  | Raise x => file_writer host clock dest s e = (Raise x, dest)
  | Ok (header, note) =>
      exists outcome rest,
        file_writer host clock dest s e = (outcome, Some (tofile header ++ rest))
  end.
Proof.
  unfold file_writer.
  destruct (get_header_from_signal host clock s e) as [[header note]|x]; [|reflexivity].
  unfold write_blockfile.
  unfold io_bind at 1. unfold io_write at 1. cbn [app].
  unfold io_bind at 1. unfold io_lift at 1.
  destruct (field_int host header "Data_offset_1") as [d1|x].
  - destruct (appends_write_blockfile_tail host s e header note d1 (tofile header))
      as [rest E].
    destruct (io_bind (write_note d1 note) (fun _ => write_stack host s e header)
                (tofile header)) as [outcome f'] eqn:W.
    cbn [snd] in E. subst f'. now exists outcome, rest.
  - exists (Raise x), []. now rewrite app_nil_r.
Qed.

(** *** The errors of the header derivation *)

Lemma prior_header_converts host blockfile_header e :
  valid_endianess e ->
  fits_record (header_record (order_of_endianess e)) blockfile_header = true ->
  exists header0,
    dict2sarray_dtype host blockfile_header (get_header_dtype_list e) = Ok header0.
Proof.
  intros V F. unfold dict2sarray_dtype.
  rewrite (np_dtype_header_valid e V). cbn [Py.bind].
  now apply dict2sarray_returns.
Qed.

(** X10. A header dictionary without a note: when the signal brings a
    header dictionary along that has no ['Note'], [file_writer] raises
    before the file is opened, at the lookup of the note at the latest,
    whatever the dictionary holds otherwise, whatever [endianess] and
    whatever the shape and the scales of the signal; the destination stays
    as it was. *)
Theorem header_without_note_is_not_written host clock dest s e blockfile_header :
  original_metadata s = Some blockfile_header ->
  dict_get blockfile_header "Note" = None ->
  exists x, file_writer host clock dest s e = (Raise x, dest).
Proof.
  intros OM N.
  destruct (get_header_from_signal host clock s e) as [[header note]|x] eqn:H.
  - apply get_header_from_signal_ok in H.
    destruct H as (bh & _ & _ & OM' & N' & _).
    rewrite OM in OM'. inversion OM'; subst bh. congruence.
  - exists x. now apply file_writer_raises_before_open.
Qed.

Lemma header_without_note_is_not_written_witness :
  exists x,
    file_writer LittleEndian 0 (Some [x2a])
      (sample_signal (Some [("MAGIC", VInt 258); ("Data_offset_1", VInt 4096)])) "<"
    = (Raise x, Some [x2a]).
Proof.
  apply header_without_note_is_not_written
    with (blockfile_header := [("MAGIC", VInt 258); ("Data_offset_1", VInt 4096)]).
  - reflexivity.
  - reflexivity.
Defined.

(** X16. Frames that are not square, with a header: when the signal brings
    a header dictionary along, with its note and with entries of the kind
    and within the range of their fields (as a header read from a file
    has them), and its frames are not square, [file_writer] raises the
    [ValueError] of [NonSquareFrame], whatever the scales, and leaves the
    destination as it was. *)
Theorem non_square_frames_are_a_value_error host clock dest s e blockfile_header note :
  original_metadata s = Some blockfile_header ->
  valid_endianess e ->
  fits_record (header_record (order_of_endianess e)) blockfile_header = true ->
  dict_get blockfile_header "Note" = Some note ->
  fst (signal_shape s) <> snd (signal_shape s) ->
  file_writer host clock dest s e
  = (Raise (ValueError "Blockfiles require signal shape to be square!"), dest).
Proof.
  intros OM V F N Sq.
  destruct (prior_header_converts host blockfile_header e V F) as [h0 D].
  exact (non_square_with_header_rejected host clock dest s e blockfile_header h0 note
           OM D N Sq).
Qed.

Lemma non_square_frames_are_a_value_error_witness :
  file_writer LittleEndian 0 (Some [x2a])
    {| data := map Z.of_nat (seq 1 120);
       navigation_shape := (2, 3);
       signal_shape := (5, 4);
       navigation_scales := (1.5, 2.5)%float;
       signal_scales := (0, 0)%float;
       original_metadata := Some (sample_blockfile_header 4096 "") |} ">"
  = (Raise (ValueError "Blockfiles require signal shape to be square!"), Some [x2a]).
Proof.
  apply non_square_frames_are_a_value_error
    with (blockfile_header := sample_blockfile_header 4096 "") (note := VStr []).
  - reflexivity.
  - right. left. reflexivity.
  - reflexivity.
  - reflexivity.
  - cbn. lia.
Defined.

(** X9. A signal scale of zero: when the signal brings a header dictionary
    along, with its note and with entries of the kind and within the range
    of their fields (as a header read from a file has them), and its
    frames are square, a scale of 0.0 (or -0.0) of the first signal axis
    makes [file_writer] raise [ZeroDivisionError], from [100. / scale], and
    the destination stays as it was. *)
Theorem zero_signal_scale_is_a_zero_division host clock dest s e blockfile_header note :
  original_metadata s = Some blockfile_header ->
  valid_endianess e ->
  fits_record (header_record (order_of_endianess e)) blockfile_header = true ->
  dict_get blockfile_header "Note" = Some note ->
  fst (signal_shape s) = snd (signal_shape s) ->
  PrimFloat.eqb (fst (signal_scales s)) 0 = true ->
  file_writer host clock dest s e = (Raise ZeroDivisionError, dest).
Proof.
  intros OM V F N Sq Z0. apply file_writer_raises_before_open.
  destruct (prior_header_converts host blockfile_header e V F) as [h0 D].
  unfold get_header_from_signal. rewrite OM, D. cbn [Py.bind]. rewrite N.
  cbn [Py.bind]. destruct (navigation_shape s).
  apply Z.eqb_eq in Sq. rewrite Sq. cbn [negb]. rewrite Z0. reflexivity.
Qed.

Lemma zero_signal_scale_is_a_zero_division_witness :
  file_writer LittleEndian 0 None
    {| data := map Z.of_nat (seq 1 96);
       navigation_shape := (2, 3);
       signal_shape := (4, 4);
       navigation_scales := (1.5, 2.5)%float;
       signal_scales := ((-0)%float, 1%float);
       original_metadata := Some (sample_blockfile_header 4096 "") |} "<"
  = (Raise ZeroDivisionError, None).
Proof.
  apply zero_signal_scale_is_a_zero_division
    with (blockfile_header := sample_blockfile_header 4096 "") (note := VStr []).
  - reflexivity.
  - left. reflexivity.
  - reflexivity.
  - reflexivity.
  - reflexivity.
  - reflexivity.
Defined.

(** *** The file the writer lays out *)

Lemma write_stack_runs host s e header f NX NY d2 nx ny :
  valid_endianess e ->
  navigation_shape s = (NX, NY) ->
  field_int host header "Data_offset_2" = Ok d2 ->
  field_int host header "NX" = Ok nx ->
  field_int host header "NY" = Ok ny ->
  0 <= NX * NY ->
  Z.of_nat (length f) + NX * NY <= d2 ->
  let limit := wrap 2 (nx * ny) in
  let pre := f ++ virtual_bright_field s
               ++ repeat x00 (Z.to_nat (d2 - Z.of_nat (length f) - NX * NY)) in
  write_stack host s e header f
  = if NX * NY <=? limit
    then (Ok tt, pre ++ framed (order_for host e) 0 (_iterate_signal s))
    else (Raise FrameCountExceeded,
          pre ++ framed (order_for host e) 0
                   (firstn (Z.to_nat limit + 1) (_iterate_signal s))).
Proof.
  intros V Hn D2 Hx Hy Hl Hp limit pre.
  unfold write_stack.
  destruct (np_dtype_u1_valid e V) as [dt1 E1].
  destruct (dp_head_setup host e V) as (dt2 & E2 & E3).
  unfold io_bind at 1. unfold io_lift at 1. rewrite E1.
  unfold io_bind at 1. unfold io_write at 1.
  unfold io_bind at 1. unfold io_lift at 1. rewrite D2.
  unfold io_bind at 1. unfold io_tell at 1.
  unfold io_bind at 1. unfold io_lift at 1.
  rewrite length_app, (length_virtual_bright_field s NX NY Hn).
  unfold zeros.
  destruct (d2 - Z.of_nat (length f + Z.to_nat (NX * NY)) <? 0) eqn:Z0;
    [apply Z.ltb_lt in Z0; lia|].
  unfold io_bind at 1. unfold io_write at 1.
  unfold io_bind at 1. unfold io_lift at 1. rewrite E2.
  unfold io_bind at 1. unfold io_lift at 1. rewrite E3.
  unfold io_bind at 1. unfold io_lift at 1. rewrite Hx.
  unfold io_bind at 1. unfold io_lift at 1. rewrite Hy.
  pose proof (wrap_range 2 (nx * ny)) as R.
  change (2 ^ (8 * Z.of_nat 2)) with 65536 in R. fold limit in R |- *.
  rewrite write_frames_from by lia.
  rewrite (length_iterate_signal s NX NY Hn).
  replace (0 + Z.of_nat (Z.to_nat (NX * NY))) with (NX * NY) by lia.
  replace (Z.to_nat (d2 - Z.of_nat (length f + Z.to_nat (NX * NY))))
    with (Z.to_nat (d2 - Z.of_nat (length f) - NX * NY)) by lia.
  replace (Z.to_nat (limit - 0 + 1)) with (Z.to_nat limit + 1)%nat by lia.
  unfold order_for, pre.
  destruct (NX * NY <=? limit); now rewrite <- !app_assoc.
Qed.

(** The run of the writer once the header is there and [Data_offset_1]
    leaves room for it: everything up to the frames, and the frames as far
    as the 16-bit product of the header's [NX] and [NY] lets them. *)
Lemma file_writer_runs host clock dest s e header note d1 NX NY :
  get_header_from_signal host clock s e = Ok (header, VStr note) ->
  navigation_shape s = (NX, NY) ->
  field_int host header "Data_offset_1" = Ok d1 ->
  240 <= d1 ->
  0 <= NX -> 0 <= NY ->
  NX * NY + d1 + (NX * NY + d1) mod 16 < 2 ^ 32 ->
  let room := Z.to_nat (d1 - 240) in
  let stored := firstn room note in
  let pre := tofile header ++ stored ++ repeat x00 (room - length stored)
             ++ virtual_bright_field s
             ++ repeat x00 (Z.to_nat ((NX * NY + d1) mod 16)) in
  let limit := wrap 2 (wrap 2 NX * wrap 2 NY) in
  Z.of_nat (length (tofile header ++ stored ++ repeat x00 (room - length stored))) = d1 /\
  Z.of_nat (length pre) = NX * NY + d1 + (NX * NY + d1) mod 16 /\
  file_writer host clock dest s e
  = if NX * NY <=? limit
    then (Ok tt, Some (pre ++ framed (order_for host e) 0 (_iterate_signal s)))
    else (Raise FrameCountExceeded,
          Some (pre ++ framed (order_for host e) 0
                         (firstn (Z.to_nat limit + 1) (_iterate_signal s)))).
Proof.
  intros H Hn D1 Hd1 Px Py Po room stored pre limit.
  destruct (header_of_signal_shape _ _ _ _ _ _ H) as (Fh & Wf & L & V).
  destruct (derived_data_offset_2 _ _ _ _ _ _ _ _ _ H Hn D1) as [D2 Rd1].
  pose proof (Z.mod_pos_bound (NX * NY + d1) 16 ltac:(lia)) as M16.
  rewrite wrap_small in D2 by (change (2 ^ (8 * Z.of_nat 4)) with (2 ^ 32); nia).
  assert (Hx : field_int host header "NX" = Ok (wrap 2 NX)).
  { eapply derived_field_int; [exact H| |reflexivity].
    intro. unfold derived_fields. rewrite Hn. reflexivity. }
  assert (Hy : field_int host header "NY" = Ok (wrap 2 NY)).
  { eapply derived_field_int; [exact H| |reflexivity].
    intro. unfold derived_fields. rewrite Hn. reflexivity. }
  set (f1 := tofile header ++ stored ++ repeat x00 (room - length stored)).
  assert (Lf1 : Z.of_nat (length f1) = d1).
  { unfold f1, stored, room.
    rewrite !length_app, repeat_length, length_firstn, L. lia. }
  assert (Lpre : Z.of_nat (length pre) = NX * NY + d1 + (NX * NY + d1) mod 16).
  { unfold pre. rewrite !app_assoc. rewrite <- (app_assoc (tofile header)).
    fold f1. rewrite <- app_assoc, !length_app, !repeat_length.
    rewrite (length_virtual_bright_field s NX NY Hn). nia. }
  split; [exact Lf1|]. split; [exact Lpre|].
  unfold file_writer. rewrite H.
  rewrite (write_blockfile_split _ _ _ _ _ d1 _ D1). cbn [app].
  rewrite write_note_run by (rewrite L; lia).
  rewrite L. change (Z.of_nat 240) with 240. fold room stored f1.
  rewrite (write_stack_runs host s e header f1 NX NY _ _ _ V Hn D2 Hx Hy)
    by nia.
  cbv zeta. fold limit.
  replace (NX * NY + d1 + (NX * NY + d1) mod 16 - Z.of_nat (length f1) - NX * NY)
    with ((NX * NY + d1) mod 16) by lia.
  unfold pre, f1.
  destruct (NX * NY <=? limit); now rewrite <- !app_assoc.
Qed.



Lemma write_note_no_room (d1 : Z) (n f : list byte) :
  d1 < Z.of_nat (length f) ->
  write_note d1 (VStr n) f
  = (Raise (ValueError "negative dimensions are not allowed"), f).
Proof.
  intro H. unfold write_note.
  unfold io_bind at 1. unfold io_lift at 1.
  unfold io_bind at 1. unfold io_tell at 1.
  destruct (Z.of_nat (length n) >? d1 - Z.of_nat (length f)) eqn:G;
    [|rewrite Z.gtb_ltb in G; apply Z.ltb_ge in G; lia].
  assert (S : slice_to n (d1 - Z.of_nat (length f) - Z.of_nat (length n)) = []).
  { unfold slice_to.
    destruct (d1 - Z.of_nat (length f) - Z.of_nat (length n) <? 0) eqn:E;
      [|apply Z.ltb_ge in E; lia].
    replace (Z.to_nat _) with 0%nat by lia. reflexivity. }
  rewrite S.
  unfold io_bind at 1. unfold io_write at 1. rewrite app_nil_r.
  unfold io_bind at 1. unfold io_tell at 1.
  unfold io_bind at 1. unfold io_lift at 1. unfold zeros.
  destruct (d1 - Z.of_nat (length f) <? 0) eqn:E; [reflexivity|].
  apply Z.ltb_ge in E. lia.
Qed.

(** X7. [Data_offset_1] below the size of the header record: the writer
    writes the 240 bytes of the header, drops the whole note, and raises
    the [ValueError] of a negative padding length; the destination is left
    holding the header record alone. *)
Theorem offset_below_the_header_leaves_a_bare_header host clock dest s e header note d1 :
  get_header_from_signal host clock s e = Ok (header, VStr note) ->
  field_int host header "Data_offset_1" = Ok d1 ->
  d1 < 240 ->
  file_writer host clock dest s e
  = (Raise (ValueError "negative dimensions are not allowed"), Some (tofile header)) /\
  length (tofile header) = 240%nat.
Proof.
  intros H D1 Hd.
  destruct (header_of_signal_shape _ _ _ _ _ _ H) as (_ & _ & L & _).
  split; [|exact L].
  unfold file_writer. rewrite H.
  rewrite (write_blockfile_split _ _ _ _ _ d1 _ D1). cbn [app].
  rewrite write_note_no_room by (rewrite L; lia). reflexivity.
Qed.

Lemma offset_below_the_header_leaves_a_bare_header_witness :
  let s := sample_signal (Some (sample_blockfile_header 100 "a note")) in
  file_writer LittleEndian 0 (Some [x2a]) s "<"
  = (Raise (ValueError "negative dimensions are not allowed"),
     Some (tofile (header_of LittleEndian 0 s "<"))).
Proof.
  intro s.
  refine (proj1 (offset_below_the_header_leaves_a_bare_header LittleEndian 0 (Some [x2a])
                   s "<" (header_of LittleEndian 0 s "<") (bytes_of_string "a note") 100
                   _ _ _)).
  - vm_compute. reflexivity.
  - vm_compute. reflexivity.
  - lia.
Defined.

(** C8, as the code has it. Note truncation on write: when [Data_offset_1]
    is not below the size of the header record (240 bytes), the note is
    stored as its first [Data_offset_1 - 240] bytes: a longer note is cut
    to exactly the room left, a note that fits is stored whole and followed
    by zeros up to [Data_offset_1]; the step raises nothing, the file
    starts with the header, the stored note and the zeros, and when the
    grid fits the 16-bit fields the whole write returns normally.  When
    [Data_offset_1] is below 240, nothing of the note is stored and the
    write raises [ValueError], leaving the header record alone. *)
Theorem note_is_truncated_to_fit host clock dest s e header note d1 :
  get_header_from_signal host clock s e = Ok (header, VStr note) ->
  field_int host header "Data_offset_1" = Ok d1 ->
  let room := Z.to_nat (d1 - 240) in
  let stored := firstn room note in
  let padding := repeat x00 (room - length stored) in
  (240 <= d1 ->
   ((room < length note)%nat -> length stored = room /\ padding = []) /\
   ((length note <= room)%nat -> stored = note) /\
   write_note d1 (VStr note) (tofile header)
   = (Ok tt, tofile header ++ stored ++ padding) /\
   Z.of_nat (length (tofile header ++ stored ++ padding)) = d1 /\
   (exists outcome rest,
      file_writer host clock dest s e
      = (outcome, Some (tofile header ++ stored ++ padding ++ rest))) /\
   (forall NX NY,
      navigation_shape s = (NX, NY) ->
      0 <= NX < 65536 -> 0 <= NY < 65536 -> NX * NY < 65536 ->
      NX * NY + d1 + (NX * NY + d1) mod 16 < 2 ^ 32 ->
      file_writer host clock dest s e
      = (Ok tt,
         Some (tofile header ++ stored ++ padding
               ++ virtual_bright_field s
               ++ repeat x00 (Z.to_nat ((NX * NY + d1) mod 16))
               ++ framed (order_for host e) 0 (_iterate_signal s))))) /\
  (d1 < 240 ->
   file_writer host clock dest s e
   = (Raise (ValueError "negative dimensions are not allowed"),
      Some (tofile header))).
Proof.
  intros H D room stored padding.
  pose proof (header_of_signal_shape _ _ _ _ _ _ H) as (_ & _ & L & _).
  split.
  - intro Hd.
    assert (Hs : (length stored <= room)%nat)
      by (unfold stored; rewrite length_firstn; lia).
    assert (R : write_note d1 (VStr note) (tofile header)
                = (Ok tt, tofile header ++ stored ++ padding)).
    { rewrite write_note_run by (rewrite L; lia). rewrite L. reflexivity. }
    split; [|split; [|split; [|split; [|split]]]].
    + intro Hn. assert (length stored = room)
        by (unfold stored; rewrite length_firstn; lia).
      split; [assumption|]. unfold padding.
      replace (room - length stored)%nat with 0%nat by lia. reflexivity.
    + intro Hn. unfold stored. now apply firstn_all2.
    + exact R.
    + rewrite !length_app, L. unfold padding. rewrite repeat_length. lia.
    + unfold file_writer. rewrite H.
      rewrite (write_blockfile_split _ _ _ _ _ d1 _ D). cbn [app]. rewrite R.
      destruct (appends_write_stack host s e header (tofile header ++ stored ++ padding))
        as [rest E].
      destruct (write_stack host s e header (tofile header ++ stored ++ padding))
        as [outcome f'] eqn:W.
      cbn [snd] in E. subst f'.
      exists outcome, rest. now rewrite <- !app_assoc.
    + intros NX NY Hn Px Py Pxy Po.
      destruct (file_writer_runs host clock dest s e header note d1 NX NY H Hn D Hd)
        as (_ & _ & W); try lia.
      rewrite (wrap_small 2 NX), (wrap_small 2 NY), (wrap_small 2 (NX * NY)) in W
        by (change (2 ^ (8 * Z.of_nat 2)) with 65536; nia).
      rewrite Z.leb_refl in W. rewrite W.
      unfold stored, padding, room. now rewrite <- !app_assoc.
  - intro Hd. unfold file_writer. rewrite H.
    rewrite (write_blockfile_split _ _ _ _ _ d1 _ D). cbn [app].
    rewrite write_note_no_room by (rewrite L; lia). reflexivity.
Qed.

Lemma note_is_truncated_to_fit_witness :
  let s := sample_signal (Some (sample_blockfile_header 260
                                  "a note that is too long by far")) in
  let header := header_of LittleEndian 0 s "<" in
  write_note 260 (VStr (bytes_of_string "a note that is too long by far"))
    (tofile header)
  = (Ok tt, tofile header ++ bytes_of_string "a note that is too l" ++ []) /\
  file_writer LittleEndian 0 None s "<"
  = (Ok tt,
     Some (tofile header ++ bytes_of_string "a note that is too l" ++ []
           ++ virtual_bright_field s
           ++ repeat x00 10
           ++ framed LittleEndian 0 (_iterate_signal s))).
Proof.
  intros s header.
  assert (H : get_header_from_signal LittleEndian 0 s "<"
              = Ok (header, VStr (bytes_of_string "a note that is too long by far")))
    by (vm_compute; reflexivity).
  assert (D : field_int LittleEndian header "Data_offset_1" = Ok 260)
    by (vm_compute; reflexivity).
  assert (Hd : 240 <= 260) by lia.
  pose proof (proj1 (note_is_truncated_to_fit LittleEndian 0 None s "<" header
                       (bytes_of_string "a note that is too long by far") 260 H D) Hd)
    as (_ & _ & R & _ & _ & W).
  split; [exact R|].
  refine (W 2 3 _ _ _ _ _); [reflexivity|lia|lia|lia|vm_compute; reflexivity].
Defined.

(** With [Data_offset_1 = 100], below the 240 bytes of the header record,
    the note ["a note"] is longer than [Data_offset_1] minus the size of
    the header record; it is not stored cut to fit: the write raises
    [ValueError] and leaves the header record alone. *)
Lemma short_offset_drops_the_note_and_raises :
  let s := sample_signal (Some (sample_blockfile_header 100 "a note")) in
  let header := header_of LittleEndian 0 s "<" in
  get_header_from_signal LittleEndian 0 s "<"
  = Ok (header, VStr (bytes_of_string "a note")) /\
  field_int LittleEndian header "Data_offset_1" = Ok 100 /\
  length (tofile header) = 240%nat /\
  100 - 240 < Z.of_nat (length (bytes_of_string "a note")) /\
  file_writer LittleEndian 0 None s "<"
  = (Raise (ValueError "negative dimensions are not allowed"),
     Some (tofile header)).
Proof.
  intros s header.
  split; [vm_compute; reflexivity|].
  split; [vm_compute; reflexivity|].
  split; [vm_compute; reflexivity|].
  split; [vm_compute; reflexivity|].
  vm_compute. reflexivity.
Qed.



(** X12. The grid and the frame side are stored in 16 bits: the derived
    header holds [NX], [NY] and [DP_SZ] modulo 65536, without complaint
    when they do not fit (65538 columns are stored as 2). *)
Theorem grid_fields_wrap_at_16_bits host clock s e header note NX NY W H :
  get_header_from_signal host clock s e = Ok (header, note) ->
  navigation_shape s = (NX, NY) ->
  signal_shape s = (W, H) ->
  0 <= NX < 2 ^ 31 -> 0 <= NY < 2 ^ 31 -> 0 <= W < 2 ^ 31 ->
  field_int host header "NX" = Ok (NX mod 65536) /\
  field_int host header "NY" = Ok (NY mod 65536) /\
  field_int host header "DP_SZ" = Ok (W mod 65536).
Proof.
  intros G Hn Hs _ _ _.
  change 65536 with (2 ^ (8 * Z.of_nat 2)).
  split; [|split];
    (eapply derived_field_int; [exact G| |reflexivity]);
    intro; unfold derived_fields; rewrite Hn, ?Hs; reflexivity.
Qed.

Lemma grid_fields_wrap_at_16_bits_witness :
  field_int LittleEndian (header_of LittleEndian 0 (grid_signal 65538 3 4096) "<") "NX"
  = Ok 2.
Proof.
  refine (proj1 (grid_fields_wrap_at_16_bits LittleEndian 0 (grid_signal 65538 3 4096) "<"
                   (header_of LittleEndian 0 (grid_signal 65538 3 4096) "<")
                   (VStr []) 65538 3 1 1 _ _ _ _ _ _)).
  - vm_compute. reflexivity.
  - reflexivity.
  - reflexivity.
  - lia.
  - lia.
  - lia.
Defined.

(** *** What the reader makes of a file *)

(** The header record at the head of a file. *)
Lemma firstn_header_app (f extra : list byte) :
  (240 <= length f)%nat -> firstn 240 (f ++ extra) = firstn 240 f.
Proof.
  intro H. rewrite firstn_app.
  replace (240 - length f)%nat with 0%nat by lia.
  cbn [firstn]. apply app_nil_r.
Qed.

Lemma header_field_float_get host header o n off :
  sa_fields header = header_record o ->
  locate (header_record o) n 0
  = Some (off, FScalar {| sc_order := o; sc_kind := Float; sc_size := 8 |}) ->
  exists x, getfield host header n = Some (VFloat x).
Proof.
  intros F L. unfold getfield. rewrite F, L. cbn [decode sc_kind]. eauto.
Qed.

Lemma dict_float_sarray2dict host a extra n x :
  getfield host a n = Some (VFloat x) ->
  dict_float (sarray2dict host a ++ extra) n = Ok x.
Proof.
  intro G. unfold dict_float. now rewrite dict_get_app, dict_get_sarray2dict, G.
Qed.

(** [file_reader] on a file of at least 240 bytes, in terms of the fields
    of the record at its head. *)
Lemma file_reader_unfolded host f e d1 d2 nx ny dp sdp SX SY :
  valid_endianess e ->
  (240 <= length f)%nat ->
  let a := {| sa_fields := header_record (order_of_endianess e);
              sa_buf := firstn 240 f |} in
  field_int host a "Data_offset_1" = Ok d1 ->
  field_int host a "Data_offset_2" = Ok d2 ->
  field_int host a "NX" = Ok nx ->
  field_int host a "NY" = Ok ny ->
  field_int host a "DP_SZ" = Ok dp ->
  field_int host a "SDP" = Ok sdp ->
  getfield host a "SX" = Some (VFloat SX) ->
  getfield host a "SY" = Some (VFloat SY) ->
  let frame := wrap 2 (dp * dp) + 6 in
  let note := if d1 - 240 <? 0 then skipn 240 f
              else firstn (Z.to_nat (d1 - 240)) (skipn 240 f) in
  let reciprocal := if sdp =? 0 then Undefined
                    else Scale (100 / float_of_Z sdp)%float in
  file_reader host (Some f) e
  = if Z.of_nat (length f) <? d2 + ny * nx * frame
    then Raise (ValueError "mmap length is greater than file size")
    else if negb (ny * nx * wrap 2 (dp * dp) =? ny * nx * (dp * dp))
    then Raise (ValueError "total size of new array must be unchanged")
    else Ok {| r_data :=
                 {| shape := [ny; nx; dp; dp];
                    buf := concat
                             (map (skipn 6)
                                (chunks (Z.to_nat frame) (Z.to_nat (ny * nx))
                                   (firstn (Z.to_nat (ny * nx * frame))
                                      (skipn (Z.to_nat d2) f)))) |};
               r_axes :=
                 [ {| size := ny; index_in_array := 0; name := "y";
                      scale := Scale SY; offset := 0%float; units := "nm" |};
                   {| size := nx; index_in_array := 1; name := "x";
                      scale := Scale SX; offset := 0%float; units := "nm" |};
                   {| size := dp; index_in_array := 2; name := "dy";
                      scale := reciprocal; offset := 0%float; units := "cm" |};
                   {| size := dp; index_in_array := 3; name := "dx";
                      scale := reciprocal; offset := 0%float; units := "cm" |} ];
               r_header := sarray2dict host a ++ [("Note", VStr note)] |}.
Proof.
  intros V L a D1 D2 Hx Hy Hd Hs HSX HSY frame note reciprocal.
  unfold file_reader. cbn [Py.bind].
  rewrite (np_dtype_header_valid e V). cbn [Py.bind].
  unfold fromfile. rewrite record_size_header.
  destruct (length f <? 240)%nat eqn:C; [apply Nat.ltb_lt in C; lia|].
  fold a. cbn [Py.bind].
  rewrite (dict_int_sarray2dict_plain _ _ _ _ D1). cbn [Py.bind].
  change (Z.of_nat 240) with 240. fold note.
  rewrite (dict_int_sarray2dict host a [("Note", VStr note)] _ _ Hx). cbn [Py.bind].
  rewrite (dict_int_sarray2dict host a [("Note", VStr note)] _ _ Hy). cbn [Py.bind].
  rewrite (dict_int_sarray2dict host a [("Note", VStr note)] _ _ Hd). cbn [Py.bind].
  rewrite (dict_int_sarray2dict host a [("Note", VStr note)] _ _ Hs). cbn [Py.bind].
  rewrite (dict_int_sarray2dict host a [("Note", VStr note)] _ _ D2). cbn [Py.bind].
  fold frame.
  destruct (Z.of_nat (length f) <? d2 + ny * nx * frame); [reflexivity|].
  destruct (negb (ny * nx * wrap 2 (dp * dp) =? ny * nx * (dp * dp))); [reflexivity|].
  rewrite (dict_float_sarray2dict host a [("Note", VStr note)] _ _ HSX).
  rewrite (dict_float_sarray2dict host a [("Note", VStr note)] _ _ HSY).
  reflexivity.
Qed.

(** The fields the reader looks at are there in every record of the header
    type, and the integers among them are not negative. *)
Lemma header_fields_exist host o (b : list byte) :
  let a := {| sa_fields := header_record o; sa_buf := b |} in
  exists d1 d2 nx ny dp sdp SX SY,
    field_int host a "Data_offset_1" = Ok d1 /\
    field_int host a "Data_offset_2" = Ok d2 /\
    field_int host a "NX" = Ok nx /\
    field_int host a "NY" = Ok ny /\
    field_int host a "DP_SZ" = Ok dp /\
    field_int host a "SDP" = Ok sdp /\
    getfield host a "SX" = Some (VFloat SX) /\
    getfield host a "SY" = Some (VFloat SY) /\
    0 <= d2 /\ 0 <= nx /\ 0 <= ny /\ 0 <= dp < 65536.
Proof.
  intro a.
  destruct (header_field_int_exists host a o "Data_offset_1" 8%nat 4%nat eq_refl eq_refl) as [d1 D1].
  destruct (header_field_int_exists host a o "Data_offset_2" 12%nat 4%nat eq_refl eq_refl) as [d2 D2].
  destruct (header_field_int_exists host a o "NX" 24%nat 2%nat eq_refl eq_refl) as [nx Hx].
  destruct (header_field_int_exists host a o "NY" 26%nat 2%nat eq_refl eq_refl) as [ny Hy].
  destruct (header_field_int_exists host a o "DP_SZ" 20%nat 2%nat eq_refl eq_refl) as [dp Hd].
  destruct (header_field_int_exists host a o "SDP" 50%nat 2%nat eq_refl eq_refl) as [sdp Hs].
  destruct (header_field_float_get host a o "SX" 30%nat eq_refl eq_refl) as [SX HSX].
  destruct (header_field_float_get host a o "SY" 38%nat eq_refl eq_refl) as [SY HSY].
  exists d1, d2, nx, ny, dp, sdp, SX, SY.
  pose proof (field_int_range host a "Data_offset_2" 12%nat o 4%nat d2 eq_refl D2).
  pose proof (field_int_range host a "NX" 24%nat o 2%nat nx eq_refl Hx).
  pose proof (field_int_range host a "NY" 26%nat o 2%nat ny eq_refl Hy).
  pose proof (field_int_range host a "DP_SZ" 20%nat o 2%nat dp eq_refl Hd) as Rd.
  change (2 ^ (8 * Z.of_nat 2)) with 65536 in Rd.
  repeat split; try assumption; lia.
Qed.

(** X5. When a read succeeds: with one of the five byte-order values for
    [endianess], a file of at least 240 bytes and a grid that is not empty,
    [file_reader] returns exactly when the file reaches
    [Data_offset_2 + NY*NX*(DP_SZ*DP_SZ mod 65536 + 6)] bytes and [DP_SZ]
    is below 256.  (The frame size is a product of unsigned 16-bit values;
    from [DP_SZ = 256] on it wraps and the frames cannot be reshaped.) *)
Theorem read_succeeds_iff_long_enough host f e d2 nx ny dp :
  valid_endianess e ->
  (240 <= length f)%nat ->
  let a := {| sa_fields := header_record (order_of_endianess e);
              sa_buf := firstn 240 f |} in
  field_int host a "Data_offset_2" = Ok d2 ->
  field_int host a "NX" = Ok nx ->
  field_int host a "NY" = Ok ny ->
  field_int host a "DP_SZ" = Ok dp ->
  0 < nx -> 0 < ny ->
  is_ok (file_reader host (Some f) e)
  = (d2 + ny * nx * ((dp * dp) mod 65536 + 6) <=? Z.of_nat (length f))
    && (dp <? 256).
Proof.
  intros V L a D2 Hx Hy Hd Px Py.
  destruct (header_fields_exist host (order_of_endianess e) (firstn 240 f))
    as (d1 & d2' & nx' & ny' & dp' & sdp & SX & SY & D1 & D2' & Hx' & Hy' & Hd'
        & Hs & HSX & HSY & R2 & Rx & Ry & Rd).
  fold a in D1, D2', Hx', Hy', Hd', Hs, HSX, HSY.
  rewrite D2 in D2'. rewrite Hx in Hx'. rewrite Hy in Hy'. rewrite Hd in Hd'.
  inversion D2'; inversion Hx'; inversion Hy'; inversion Hd'; subst d2' nx' ny' dp'.
  rewrite (file_reader_unfolded host f e d1 d2 nx ny dp sdp SX SY V L
             D1 D2 Hx Hy Hd Hs HSX HSY).
  change (wrap 2 (dp * dp)) with ((dp * dp) mod 65536).
  rewrite Z.ltb_antisym.
  destruct (d2 + ny * nx * ((dp * dp) mod 65536 + 6) <=? Z.of_nat (length f));
    cbn [negb andb is_ok]; [|reflexivity].
  destruct (dp <? 256) eqn:C.
  - apply Z.ltb_lt in C.
    rewrite Z.mod_small by nia. rewrite Z.eqb_refl. reflexivity.
  - apply Z.ltb_ge in C.
    destruct (ny * nx * ((dp * dp) mod 65536) =? ny * nx * (dp * dp)) eqn:E;
      [|reflexivity].
    apply Z.eqb_eq in E.
    pose proof (Z.mod_pos_bound (dp * dp) 65536 ltac:(lia)).
    assert (0 < ny * nx) by nia.
    assert (65536 <= dp * dp) by nia.
    apply Z.mul_reg_l in E; lia.
Qed.

Lemma read_succeeds_iff_long_enough_witness :
  is_ok (file_reader LittleEndian (Some sample_blockfile) "<")
  = (4108 + 3 * 2 * ((4 * 4) mod 65536 + 6) <=? Z.of_nat (length sample_blockfile))
    && (4 <? 256).
Proof.
  refine (read_succeeds_iff_long_enough LittleEndian sample_blockfile "<" 4108 2 3 4
            _ _ _ _ _ _ _ _).
  - left. reflexivity.
  - apply Nat.leb_le. vm_compute. reflexivity.
  - vm_compute. reflexivity.
  - vm_compute. reflexivity.
  - vm_compute. reflexivity.
  - vm_compute. reflexivity.
  - lia.
  - lia.
Defined.

(** [file_reader] returned: the file has a header record, and the fields
    satisfy the two conditions. *)
Lemma file_reader_returned host f e r :
  file_reader host (Some f) e = Ok r ->
  valid_endianess e /\ (240 <= length f)%nat.
Proof.
  intro H. unfold file_reader in H. cbn [Py.bind] in H.
  destruct (np_dtype (get_header_dtype_list e)) as [dt|] eqn:P; [|discriminate].
  apply np_dtype_header in P. destruct P as [-> V].
  split; [exact V|].
  cbn [Py.bind] in H. unfold fromfile in H. rewrite record_size_header in H.
  destruct (length f <? 240)%nat eqn:C; [discriminate|].
  apply Nat.ltb_ge in C. exact C.
Qed.

(** X6. Bytes after the stack of frames are not looked at: when a file is
    read, the same file with anything appended is read too, with the same
    data and the same axes. *)
Theorem trailing_bytes_are_ignored host f extra e r :
  file_reader host (Some f) e = Ok r ->
  exists r',
    file_reader host (Some (f ++ extra)) e = Ok r' /\
    r_data r' = r_data r /\
    r_axes r' = r_axes r.
Proof.
  intro H.
  destruct (file_reader_returned _ _ _ _ H) as [V L].
  destruct (header_fields_exist host (order_of_endianess e) (firstn 240 f))
    as (d1 & d2 & nx & ny & dp & sdp & SX & SY & D1 & D2 & Hx & Hy & Hd
        & Hs & HSX & HSY & R2 & Rx & Ry & Rd).
  rewrite (file_reader_unfolded host f e d1 d2 nx ny dp sdp SX SY V L
             D1 D2 Hx Hy Hd Hs HSX HSY) in H.
  assert (L' : (240 <= length (f ++ extra))%nat) by (rewrite length_app; lia).
  rewrite <- (firstn_header_app f extra L) in D1, D2, Hx, Hy, Hd, Hs, HSX, HSY.
  rewrite (file_reader_unfolded host (f ++ extra) e d1 d2 nx ny dp sdp SX SY V L'
             D1 D2 Hx Hy Hd Hs HSX HSY).
  destruct (Z.of_nat (length f) <? d2 + ny * nx * (wrap 2 (dp * dp) + 6)) eqn:C;
    [discriminate|].
  apply Z.ltb_ge in C.
  destruct (negb (ny * nx * wrap 2 (dp * dp) =? ny * nx * (dp * dp))); [discriminate|].
  inversion H; subst r; clear H. cbn [r_data r_axes].
  destruct (Z.of_nat (length (f ++ extra)) <? d2 + ny * nx * (wrap 2 (dp * dp) + 6))
    eqn:C'.
  { apply Z.ltb_lt in C'. rewrite length_app in C'. lia. }
  eexists. split; [reflexivity|]. cbn [r_data r_axes].
  split; [|reflexivity].
  do 4 f_equal.
  pose proof (wrap_range 2 (dp * dp)) as Rw.
  assert (0 <= ny * nx * (wrap 2 (dp * dp) + 6)) by nia.
  rewrite skipn_app, firstn_app, length_skipn.
  replace (Z.to_nat (ny * nx * (wrap 2 (dp * dp) + 6)) - (length f - Z.to_nat d2))%nat
    with 0%nat by lia.
  cbn [firstn]. apply app_nil_r.
Qed.

(** *** Frames behind their heads *)








Lemma trailing_bytes_are_ignored_witness :
  exists r',
    file_reader LittleEndian (Some (sample_blockfile ++ [x01; x02; x03])) "<" = Ok r' /\
    r_data r' = r_data sample_reading /\
    r_axes r' = r_axes sample_reading.
Proof.
  refine (trailing_bytes_are_ignored LittleEndian sample_blockfile [x01; x02; x03] "<"
            sample_reading _).
  vm_compute. reflexivity.
Defined.



(** *** A header that was read, saved again *)

Lemma reread_field host clock f e r s e' header note n off k :
  file_reader host (Some f) e = Ok r ->
  original_metadata s = Some (r_header r) ->
  get_header_from_signal host clock s e' = Ok (header, note) ->
  (forall o, locate (header_record o) n 0
             = Some (off, FScalar {| sc_order := o; sc_kind := UInt; sc_size := k |})) ->
  (forall d1, dict_get (derived_fields s d1) n = None) ->
  let a := {| sa_fields := header_record (order_of_endianess e);
              sa_buf := firstn 240 f |} in
  field_int host header n = field_int host a n.
Proof.
  intros R OM H Lo Dv a.
  destruct (file_reader_returned _ _ _ _ R) as [V L].
  destruct (header_fields_exist host (order_of_endianess e) (firstn 240 f))
    as (d1 & d2 & nx & ny & dp & sdp & SX & SY & D1 & D2 & Hx & Hy & Hd
        & Hs & HSX & HSY & _).
  rewrite (file_reader_unfolded host f e d1 d2 nx ny dp sdp SX SY V L
             D1 D2 Hx Hy Hd Hs HSX HSY) in R.
  destruct (Z.of_nat (length f) <? d2 + ny * nx * (wrap 2 (dp * dp) + 6));
    [discriminate|].
  destruct (negb (ny * nx * wrap 2 (dp * dp) =? ny * nx * (dp * dp))); [discriminate|].
  match type of R with
  | Ok ?x = Ok r =>
      assert (Eh : r_header r = r_header x) by (injection R as <-; reflexivity)
  end.
  cbn [r_header] in Eh. fold a in Eh. rewrite Eh in OM. clear R Eh.
  destruct (header_field_int_exists host a (order_of_endianess e) n off k
              eq_refl (Lo _)) as [v Fv].
  pose proof (field_int_range host a n off _ k v (Lo _) Fv) as Rv.
  rewrite Fv, <- (wrap_small k v Rv).
  eapply inherited_field_int; [exact H|exact OM| |exact Dv|apply Lo].
  rewrite dict_get_app, dict_get_sarray2dict.
  unfold field_int in Fv.
  destruct (getfield host a n) as [[| |]|]; try discriminate.
  now inversion Fv.
Qed.

(** X11. Saving what was read keeps the header: when a file was read and
    the header dictionary of the reading comes along with the signal that
    is saved, the header record that is written has, in the fields the
    writer does not set itself ([MAGIC], [Data_offset_1], [UNKNOWN1],
    [DP_rotation], [Scan_rotation], [Beam_energy], [Camera_length]), the
    values of the header record of the file read; and this with any
    [endianess] on either side. *)
Theorem reread_header_fields_are_kept host clock f e r s e' header note :
  file_reader host (Some f) e = Ok r ->
  original_metadata s = Some (r_header r) ->
  get_header_from_signal host clock s e' = Ok (header, note) ->
  let a := {| sa_fields := header_record (order_of_endianess e);
              sa_buf := firstn 240 f |} in
  Forall (fun n => field_int host header n = field_int host a n)
    ["MAGIC"; "Data_offset_1"; "UNKNOWN1"; "DP_rotation"; "Scan_rotation";
     "Beam_energy"; "Camera_length"].
Proof.
  intros R OM H a.
  pose proof (fun n off k => reread_field host clock f e r s e' header note n off k
                                R OM H) as K.
  cbv zeta in K. fold a in K.
  assert (D : forall n d1, negb (existsb (String.eqb n)
                                  ["NX"; "NY"; "DP_SZ"; "SX"; "SY"; "SDP"; "Data_offset_2"])
                           = true ->
                           dict_get (derived_fields s d1) n = None).
  { intros n d1. unfold derived_fields. destruct (navigation_shape s).
    cbn [existsb dict_get]. rewrite !(String.eqb_sym n).
    repeat (destruct (String.eqb _ n); [discriminate|]). reflexivity. }
  repeat apply Forall_cons.
  - apply (K "MAGIC" 6%nat 2%nat); [reflexivity|intro; now apply D].
  - apply (K "Data_offset_1" 8%nat 4%nat); [reflexivity|intro; now apply D].
  - apply (K "UNKNOWN1" 16%nat 4%nat); [reflexivity|intro; now apply D].
  - apply (K "DP_rotation" 22%nat 2%nat); [reflexivity|intro; now apply D].
  - apply (K "Scan_rotation" 28%nat 2%nat); [reflexivity|intro; now apply D].
  - apply (K "Beam_energy" 46%nat 4%nat); [reflexivity|intro; now apply D].
  - apply (K "Camera_length" 52%nat 4%nat); [reflexivity|intro; now apply D].
  - apply Forall_nil.
Qed.

Lemma reread_header_fields_are_kept_witness :
  let s := sample_signal (Some (r_header sample_reading)) in
  let a := {| sa_fields := header_record (order_of_endianess "<");
              sa_buf := firstn 240 sample_blockfile |} in
  Forall (fun n => field_int LittleEndian (header_of LittleEndian 0 s ">") n
                   = field_int LittleEndian a n)
    ["MAGIC"; "Data_offset_1"; "UNKNOWN1"; "DP_rotation"; "Scan_rotation";
     "Beam_energy"; "Camera_length"].
Proof.
  intros s a.
  refine (reread_header_fields_are_kept LittleEndian 0 sample_blockfile "<"
            sample_reading s ">" (header_of LittleEndian 0 s ">")
            (VStr (repeat x00 3856)) _ _ _).
  - vm_compute. reflexivity.
  - reflexivity.
  - vm_compute. reflexivity.
Defined.
